(** * Railway MCP server v2: session/transport layer and the bulk variable command

    A shallow embedding of [src/index.ts].  The Express handlers become
    functions from the server state and the request to a new state, the
    HTTP response and the list of SDK calls the handler made.  The MCP SDK
    (transports and protocol engine), the GraphQL backend and
    [crypto.randomUUID] are outside the repository: what they return or
    throw is supplied from outside, as data carried by the request
    ([SdkBehaviour]), as a function ([respond]) or as an id supply
    ([randomUUID]). *)

From stdpp Require Import base strings list gmap.
From Stdlib Require Import ZArith.

Open Scope string_scope.
Open Scope list_scope.
Open Scope Z_scope.

(** ** JavaScript values and the session object *)

Module Js.

(** The JSON values a request body field can hold.  [JsObject] stands for
    every other value (arrays, objects, non-integral numbers): all of them
    are truthy and none is [===] to a string. *)
Inductive Value :=
| JsUndefined
| JsNull
| JsBool (b : bool)
| JsNumber (n : Z)
| JsString (s : string)
| JsObject.

Definition truthy (v : Value) : bool :=
  match v with
  | JsUndefined | JsNull => false
  | JsBool b => b
  | JsNumber n => negb (n =? 0)
  | JsString s => negb (String.eqb s "")
  | JsObject => true
  end.

(** [v || null] *)
Definition or_null (v : Value) : Value := if truthy v then v else JsNull.

(** A header or query value read [as string]: [undefined] or a string;
    only a non-empty string is truthy. *)
Definition present (s : option string) : option string :=
  match s with
  | Some k => if String.eqb k "" then None else Some k
  | None => None
  end.

(** The property names every object literal inherits from
    [Object.prototype]. *)
Definition Object_prototype : list string :=
  [ "constructor"; "__defineGetter__"; "__defineSetter__"; "hasOwnProperty";
    "__lookupGetter__"; "__lookupSetter__"; "isPrototypeOf";
    "propertyIsEnumerable"; "toString"; "valueOf"; "__proto__";
    "toLocaleString" ].

(** The result of [obj[key]] on an object literal used as a map: an own
    property, else a member of [Object.prototype] (a function, or the
    prototype itself for [__proto__]: truthy, with no SDK method), else
    [undefined]. *)
Inductive Lookup (A : Type) :=
| Own (a : A)
| Inherited (name : string)
| Undefined.
Arguments Own {A} a.
Arguments Inherited {A} name.
Arguments Undefined {A}.

Definition get {A} (obj : gmap string A) (key : string) : Lookup A :=
  match obj !! key with
  | Some a => Own a
  | None =>
      if bool_decide (key ∈ Object_prototype) then Inherited key else Undefined
  end.

(** [Object.keys(obj).length]: own enumerable properties only. *)
Definition keys_length {A} (obj : gmap string A) : nat := size obj.

End Js.

(** ** Backend client and the bulk variable command *)

Inductive Query :=
| listProjects | getProject | listServices | listDeployments
| getDeploymentLogs | listVariables | listEnvironments | createProject
| createService | deployFromGithub | createDomain | setVariable
| restartService | deleteProject | deleteService | deleteVariable.

(** One [client.request(query, variables)]. *)
Record BackendCall := {
  query : Query;
  variables : list (string * string)
}.

(** A settled promise. *)
Inductive Settled (A : Type) :=
| Fulfilled (a : A)
| RejectedWith (error : string).
Arguments Fulfilled {A} a.
Arguments RejectedWith {A} error.

(** An async computation against the backend: it extends the log of the
    requests issued so far and settles. *)
Definition Async (A : Type) : Type :=
  list BackendCall -> list BackendCall * Settled A.

Definition resolve {A} (a : A) : Async A := fun log => (log, Fulfilled a).

(** [await m; k]: a rejection of [m] leaves the function at once. *)
Definition await {A B} (m : Async A) (k : A -> Async B) : Async B :=
  fun log =>
    match m log with
    | (log', Fulfilled a) => k a log'
    | (log', RejectedWith e) => (log', RejectedWith e)
    end.

(** The arguments of [set_variables_bulk]; [bulkVariables] lists the own
    properties of the [variables] record in the order [Object.entries]
    yields them. *)
Record BulkArgs := {
  projectId : string;
  environmentId : string;
  serviceId : string;
  bulkVariables : list (string * string)
}.

(** [{ name, success: true }] *)
Record BulkResult := {
  name : string;
  success : bool
}.

Section Registry.

(** How the backend settles a request, given the requests issued before. *)
Variable respond : list BackendCall -> BackendCall -> Settled string.

Definition request (c : BackendCall) : Async string :=
  fun log => (log ++ [c], respond log c).

Definition setVariableCall (a : BulkArgs) (entry : string * string) : BackendCall :=
  {| query := setVariable;
     variables := [ ("projectId", projectId a);
                    ("environmentId", environmentId a);
                    ("serviceId", serviceId a);
                    ("name", entry.1);
                    ("value", entry.2) ] |}.

(** The [for ... of Object.entries(variables)] loop, [results] being the
    array built so far. *)
Fixpoint bulk_loop (a : BulkArgs) (entries : list (string * string))
    (results : list BulkResult) : Async (list BulkResult) :=
  match entries with
  | [] => resolve results
  | entry :: rest =>
      await (request (setVariableCall a entry)) (fun _ =>
      bulk_loop a rest (results ++ [ {| name := entry.1; success := true |} ]))
  end.

(** The tool callback; the fulfilled value is the [results] array that is
    rendered into the text content. *)
Definition set_variables_bulk (a : BulkArgs) : Async (list BulkResult) :=
  bulk_loop a (bulkVariables a) [].

(** The single-variable tool, for comparison: one request. *)
Definition set_variable (a : BulkArgs) (entry : string * string) : Async BulkResult :=
  await (request (setVariableCall a entry)) (fun _ =>
  resolve {| name := entry.1; success := true |}).

(** Every request of [calls], issued in order after [log], is fulfilled. *)
Fixpoint accepted (log calls : list BackendCall) : Prop :=
  match calls with
  | [] => True
  | c :: rest =>
      (exists data, respond log c = Fulfilled data) /\ accepted (log ++ [c]) rest
  end.

Definition succeeded (entry : string * string) : BulkResult :=
  {| name := entry.1; success := true |}.

End Registry.

(** ** Sessions and the transport router *)

Inductive TransportKind :=
| StreamableHTTPServerTransport
| SSEServerTransport.

(** A transport object.  [sessionId] is what [sessionIdGenerator] returns
    for a streamable transport and the [sessionId] property of an SSE
    transport. *)
Record Transport := {
  kind : TransportKind;
  sessionId : string
}.

(** The two fields of [req.body] the router reads. *)
Record RpcBody := {
  body_method : Js.Value;
  body_id : Js.Value
}.

(** [req.body?.method === "initialize"] *)
Definition isInitRequest (body : option RpcBody) : bool :=
  match body with
  | Some b =>
      match body_method b with
      | Js.JsString m => String.eqb m "initialize"
      | _ => false
      end
  | None => false
  end.

(** [req.body?.id || null] *)
Definition id_or_null (body : option RpcBody) : Js.Value :=
  match body with
  | Some b => Js.or_null (body_id b)
  | None => Js.JsNull
  end.

(** What an awaited SDK call does: it returns, or it throws, and then
    [res.headersSent] tells whether the response had begun. *)
Inductive Outcome :=
| Returns
| Throws (headersSent : bool).

(** [transport.close()]: when it throws, [oncloseRan] tells whether the
    transport had already invoked its [onclose] callback. *)
Inductive CloseOutcome :=
| CloseReturns
| CloseThrows (oncloseRan : bool).

(** The behaviour of the SDK during one request. *)
Record SdkBehaviour := {
  connect : Outcome;
  handleRequest : Outcome;
  handlePostMessage : Outcome;
  close : CloseOutcome
}.

(** The SDK calls a handler makes, each on the object it is made on;
    servers are numbered in the order [createMcpServer] built them.  Tool
    callbacks, and so backend requests, run only inside [HandleRequest]
    and [HandlePostMessage]. *)
Inductive SdkCall :=
| Construct (t : Transport)
| CreateMcpServer (n : nat)
| Connect (n : nat) (t : Transport)
| HandleRequest (t : Transport) (body : option RpcBody)
| HandlePostMessage (t : Transport) (body : option RpcBody)
| Close (t : Transport).

Inductive Response :=
(** [res.status(s).json({ jsonrpc: "2.0", error: { code, message }, id })] *)
| JsonRpcError (status : Z) (code : Z) (message : string) (id : Js.Value)
(** [res.status(s).json({ error })] *)
| JsonError (status : Z) (error : string)
(** [res.status(s).end()] *)
| StatusOnly (status : Z)
(** [res.json({ status, sessions, version })] *)
| HealthReport (status : string) (sessions : nat) (version : string)
(** [res.json({ name, version, endpoints, tools })] *)
| RootDescription (name version : string) (endpoints tools : list string)
(** whatever the transport wrote while handling the body *)
| WrittenByTransport (t : Transport) (body : option RpcBody)
(** the event stream the SSE transport opened *)
| EventStream (t : Transport)
(** the failure came after the headers: it is logged, nothing is sent *)
| LoggedOnly.

(** How the handler's promise settles: after a response, or rejected
    with nothing written by the handler. *)
Inductive Completion :=
| Responded (r : Response)
| Unhandled.

(** The module-level [transports] object, with the number of
    [randomUUID()] calls and of servers built so far, and the session ids
    whose SSE transport carries the router's [onclose] callback. *)
Record State := {
  transports : gmap string Transport;
  uuids : nat;
  servers : nat;
  closeListeners : gset string
}.

Definition initial : State :=
  {| transports := ∅; uuids := 0; servers := 0; closeListeners := ∅ |}.

Record Handled := {
  state : State;
  completion : Completion;
  calls : list SdkCall
}.

(** [delete transports[sid]] *)
Definition delete_transport (sid : string) (st : State) : State :=
  {| transports := delete sid (transports st);
     uuids := uuids st;
     servers := servers st;
     closeListeners := closeListeners st |}.

(** The callback [transport.onclose = () => { delete transports[sessionId] }]
    that [GET /sse] installs; streamable transports get none. *)
Definition run_onclose (t : Transport) (st : State) : State :=
  match kind t with
  | SSEServerTransport => delete_transport (sessionId t) st
  | StreamableHTTPServerTransport => st
  end.

(** The [catch] block of [POST /mcp]. *)
Definition mcp_catch (body : option RpcBody) (headersSent : bool) : Response :=
  if headersSent then LoggedOnly
  else JsonRpcError 500 (-32603) "Internal server error" (id_or_null body).

(** The [else] branch of [POST /mcp]. *)
Definition invalid_session (body : option RpcBody) : Response :=
  JsonRpcError 400 (-32000) "Invalid or missing session" (id_or_null body).

Section Router.

(** [randomUUID n] is the value the [n]-th call of [crypto.randomUUID]
    returns (the SSE transport draws its [sessionId] from it too).  The
    values are 36-character UUID strings, so a write
    [transports[id] = transport] always sets an own property. *)
Variable randomUUID : nat -> string.

Definition post_mcp (st : State) (sessionHeader : option string)
    (body : option RpcBody) (sdk : SdkBehaviour) : Handled :=
  if isInitRequest body then
    let newSessionId := randomUUID (uuids st) in
    let transport :=
      {| kind := StreamableHTTPServerTransport; sessionId := newSessionId |} in
    let n := servers st in
    let st' :=
      {| transports := <[newSessionId := transport]> (transports st);
         uuids := S (uuids st);
         servers := S n;
         closeListeners := closeListeners st |} in
    match connect sdk with
    | Throws sent =>
        {| state := st';
           completion := Responded (mcp_catch body sent);
           calls := [Construct transport; CreateMcpServer n;
                     Connect n transport] |}
    | Returns =>
        {| state := st';
           completion :=
             Responded
               match handleRequest sdk with
               | Returns => WrittenByTransport transport body
               | Throws sent => mcp_catch body sent
               end;
           calls := [Construct transport; CreateMcpServer n;
                     Connect n transport; HandleRequest transport body] |}
    end
  else
    match Js.present sessionHeader with
    | Some sid =>
        match Js.get (transports st) sid with
        | Js.Own transport =>
            (* cast to StreamableHTTPServerTransport, whatever its class *)
            match kind transport with
            | StreamableHTTPServerTransport =>
                {| state := st;
                   completion :=
                     Responded
                       match handleRequest sdk with
                       | Returns => WrittenByTransport transport body
                       | Throws sent => mcp_catch body sent
                       end;
                   calls := [HandleRequest transport body] |}
            | SSEServerTransport =>
                (* an SSE transport has [handlePostMessage] and [close] but
                   no [handleRequest]: TypeError, nothing sent *)
                {| state := st;
                   completion := Responded (mcp_catch body false);
                   calls := [] |}
            end
        | Js.Inherited _ =>
            (* [handleRequest] is not a function: TypeError, nothing sent *)
            {| state := st;
               completion := Responded (mcp_catch body false);
               calls := [] |}
        | Js.Undefined =>
            {| state := st;
               completion := Responded (invalid_session body);
               calls := [] |}
        end
    | None =>
        {| state := st;
           completion := Responded (invalid_session body);
           calls := [] |}
    end.

Definition delete_mcp (st : State) (sessionHeader : option string)
    (sdk : SdkBehaviour) : Handled :=
  match Js.present sessionHeader with
  | Some sid =>
      match Js.get (transports st) sid with
      | Js.Own transport =>
          match close sdk with
          | CloseReturns =>
              {| state := delete_transport sid (run_onclose transport st);
                 completion := Responded (StatusOnly 204);
                 calls := [Close transport] |}
          | CloseThrows ran =>
              (* no try/catch: the rejection leaves the handler *)
              {| state := if ran then run_onclose transport st else st;
                 completion := Unhandled;
                 calls := [Close transport] |}
          end
      | Js.Inherited _ =>
          (* [close] is undefined there, [close?.()] is skipped, and
             deleting a property that is not an own one changes nothing *)
          {| state := delete_transport sid st;
             completion := Responded (StatusOnly 204);
             calls := [] |}
      | Js.Undefined =>
          {| state := st;
             completion := Responded (JsonError 404 "Session not found");
             calls := [] |}
      end
  | None =>
      {| state := st;
         completion := Responded (JsonError 404 "Session not found");
         calls := [] |}
  end.

Definition get_sse (st : State) (sdk : SdkBehaviour) : Handled :=
  let sid := randomUUID (uuids st) in
  let transport := {| kind := SSEServerTransport; sessionId := sid |} in
  let n := servers st in
  let st' :=
    {| transports := <[sid := transport]> (transports st);
       uuids := S (uuids st);
       servers := S n;
       closeListeners := {[sid]} ∪ closeListeners st |} in
  match connect sdk with
  | Returns =>
      {| state := st';
         completion := Responded (EventStream transport);
         calls := [Construct transport; CreateMcpServer n; Connect n transport] |}
  | Throws sent =>
      {| state := delete_transport sid st';
         completion := Responded (if sent then LoggedOnly else StatusOnly 500);
         calls := [Construct transport; CreateMcpServer n; Connect n transport] |}
  end.

(** [req.query.sessionId] is taken to be a string or absent. *)
Definition post_messages (st : State) (sessionIdQuery : option string)
    (body : option RpcBody) (sdk : SdkBehaviour) : Handled :=
  match Js.present sessionIdQuery with
  | None =>
      {| state := st;
         completion := Responded (JsonError 400 "Missing sessionId");
         calls := [] |}
  | Some sid =>
      match Js.get (transports st) sid with
      | Js.Own ({| kind := SSEServerTransport |} as transport) =>
          {| state := st;
             completion :=
               Responded
                 match handlePostMessage sdk with
                 | Returns => WrittenByTransport transport body
                 | Throws true => LoggedOnly
                 | Throws false => JsonError 500 "Internal server error"
                 end;
             calls := [HandlePostMessage transport body] |}
      | _ =>
          (* absent, or not an instance of SSEServerTransport *)
          {| state := st;
             completion := Responded (JsonError 404 "Session not found");
             calls := [] |}
      end
  end.

Definition get_health (st : State) : Handled :=
  {| state := st;
     completion :=
       Responded (HealthReport "ok" (Js.keys_length (transports st)) "2.0.0");
     calls := [] |}.

Definition tool_names : list string :=
  [ "list_projects"; "get_project"; "list_services"; "list_deployments";
    "get_deployment_logs"; "list_variables"; "list_environments";
    "create_project"; "create_service"; "deploy_from_github"; "create_domain";
    "set_variable"; "set_variables_bulk"; "restart_service";
    "delete_project"; "delete_service"; "delete_variable" ].

Definition get_root (st : State) : Handled :=
  {| state := st;
     completion :=
       Responded (RootDescription "Railway MCP Server" "2.0.0"
                    ["/mcp"; "/sse"; "/messages"; "/health"] tool_names);
     calls := [] |}.

(** The routes of the Express application. *)
Inductive Request :=
| POST_mcp (sessionHeader : option string) (body : option RpcBody)
| DELETE_mcp (sessionHeader : option string)
| GET_sse
| POST_messages (sessionIdQuery : option string) (body : option RpcBody)
| GET_health
| GET_root.

Definition route (st : State) (req : Request) (sdk : SdkBehaviour) : Handled :=
  match req with
  | POST_mcp h b => post_mcp st h b sdk
  | DELETE_mcp h => delete_mcp st h sdk
  | GET_sse => get_sse st sdk
  | POST_messages q b => post_messages st q b sdk
  | GET_health => get_health st
  | GET_root => get_root st
  end.

(** What happens to the process: a request arrives (and the SDK behaves
    in some way while it is handled), or an SSE connection goes away and
    its transport fires [onclose]. *)
Inductive Event :=
| Incoming (req : Request) (sdk : SdkBehaviour)
| ConnectionClosed (sid : string).

Definition step (st : State) (ev : Event) : State :=
  match ev with
  | Incoming req sdk => state (route st req sdk)
  | ConnectionClosed sid =>
      if bool_decide (sid ∈ closeListeners st) then delete_transport sid st
      else st
  end.

Definition run (st : State) (evs : list Event) : State :=
  foldl step st evs.

(** *** The sessions an observer of the server counts

    A session is created when a handler constructs a transport, and
    destroyed when [DELETE /mcp] answers 204, when the connect of a new
    SSE session fails, or when an SSE transport fires [onclose]. *)
Inductive SessionEffect :=
| Created (t : Transport)
| Destroyed (sid : string).

Definition constructed (c : SdkCall) : option SessionEffect :=
  match c with
  | Construct t => Some (Created t)
  | _ => None
  end.

(** An SSE transport that was closed and fired [onclose]. *)
Definition closed_stream (sdk : SdkBehaviour) (c : SdkCall) : option SessionEffect :=
  match c, close sdk with
  | Close ({| kind := SSEServerTransport |} as t), CloseThrows true =>
      Some (Destroyed (sessionId t))
  | _, _ => None
  end.

(** The transport of an SSE session whose connect failed. *)
Definition abandoned (c : SdkCall) : option SessionEffect :=
  match c with
  | Construct t => Some (Destroyed (sessionId t))
  | _ => None
  end.

Definition effects_of (req : Request) (sdk : SdkBehaviour) (h : Handled)
    : list SessionEffect :=
  omap constructed (calls h) ++
  match req, completion h with
  | DELETE_mcp (Some sid), Responded (StatusOnly 204) => [Destroyed sid]
  | DELETE_mcp _, Unhandled => omap (closed_stream sdk) (calls h)
  | GET_sse, Responded (StatusOnly _ | LoggedOnly) =>
      omap abandoned (calls h)
  | _, _ => []
  end.

Definition effects (st : State) (ev : Event) : list SessionEffect :=
  match ev with
  | Incoming req sdk => effects_of req sdk (route st req sdk)
  | ConnectionClosed sid =>
      if bool_decide (sid ∈ closeListeners st) then [Destroyed sid] else []
  end.

(** The effects of a run, in order. *)
Fixpoint history (st : State) (evs : list Event) : list SessionEffect :=
  match evs with
  | [] => []
  | ev :: rest => effects st ev ++ history (step st ev) rest
  end.

Definition account (live : gset string) (e : SessionEffect) : gset string :=
  match e with
  | Created t => {[sessionId t]} ∪ live
  | Destroyed sid => live ∖ {[sid]}
  end.

(** The sessions created and not yet destroyed. *)
Definition live_sessions (h : list SessionEffect) : gset string :=
  foldl account ∅ h.


End Router.

(** ** Invariants of the session object *)

(** Every transport is stored under its own session id. *)
Definition well_keyed (st : State) : Prop :=
  forall sid t, transports st !! sid = Some t -> sessionId t = sid.

(** Every key of the session object is an id already drawn from
    [randomUUID]. *)
Definition drawn (randomUUID : nat -> string) (st : State) : Prop :=
  forall sid, is_Some (transports st !! sid) ->
    exists i, (i < uuids st)%nat /\ sid = randomUUID i.

(** ** The session header of a response *)

Section ResponseHeaders.

(** The [Mcp-Session-Id] header a transport writes while it handles a
    body: the SDK's own doing, the router never sets the header itself. *)
Variable sdk_session_header : Transport -> option RpcBody -> option string.

Definition mcp_session_id (r : Response) : option string :=
  match r with
  | WrittenByTransport t body => sdk_session_header t body
  | _ => None
  end.

End ResponseHeaders.

(** ** Concrete inputs used in the examples *)

(** A streamable transport that answers an initialize message with the
    id its [sessionIdGenerator] returns. *)
Definition header_on_initialize (t : Transport) (body : option RpcBody)
    : option string :=
  match kind t with
  | StreamableHTTPServerTransport =>
      if isInitRequest body then Some (sessionId t) else None
  | SSEServerTransport => None
  end.

Definition failing_handle_sdk : SdkBehaviour :=
  {| connect := Returns; handleRequest := Throws false;
     handlePostMessage := Returns; close := CloseReturns |}.

(** A backend that rejects the upsert of the variable named [B]. *)
Definition rejects_B (log : list BackendCall) (c : BackendCall) : Settled string :=
  if bool_decide (("name", "B") ∈ variables c) then RejectedWith "GraphQL error"
  else Fulfilled "true".

Definition abc_args : BulkArgs :=
  {| projectId := "p"; environmentId := "e"; serviceId := "s";
     bulkVariables := [("A", "1"); ("B", "2"); ("C", "3")] |}.

(** An id supply of UUID-shaped strings, distinct for the first ten. *)
Definition sampleUUID (n : nat) : string :=
  "00000000-0000-4000-8000-00000000000"
  +:+ String (Ascii.ascii_of_nat (48 + n mod 10)) "".

Definition ok_sdk : SdkBehaviour :=
  {| connect := Returns; handleRequest := Returns;
     handlePostMessage := Returns; close := CloseReturns |}.

Definition failing_close_sdk : SdkBehaviour :=
  {| connect := Returns; handleRequest := Returns;
     handlePostMessage := Returns; close := CloseThrows false |}.

Definition initialize_body : option RpcBody :=
  Some {| body_method := Js.JsString "initialize"; body_id := Js.JsNumber 1 |}.

Definition tools_list_body : option RpcBody :=
  Some {| body_method := Js.JsString "tools/list"; body_id := Js.JsNumber 2 |}.

(** The state after one [GET /sse], with the SSE session [sampleUUID 0]
    live. *)
Definition one_stream : State :=
  run sampleUUID initial [Incoming GET_sse ok_sdk].

(** Two sessions are created, the first is destroyed, a third is
    created. *)
Definition create_destroy_create : list Event :=
  [ Incoming (POST_mcp None initialize_body) ok_sdk;
    Incoming GET_sse ok_sdk;
    Incoming (DELETE_mcp (Some (sampleUUID 0))) ok_sdk;
    Incoming (POST_mcp None initialize_body) ok_sdk ].

(** ** The SDK call that failed *)

(** A handler awaits its SDK calls one after the other, so the call that
    threw, if one did, is the last one it made; [thrown] gives
    [res.headersSent] at that point.  ([close] is awaited outside any
    [try] and is left out.) *)
Definition thrown (sdk : SdkBehaviour) (h : Handled) : option bool :=
  match last (calls h) with
  | Some (Connect _ _) =>
      match connect sdk with Throws sent => Some sent | Returns => None end
  | Some (HandleRequest _ _) =>
      match handleRequest sdk with Throws sent => Some sent | Returns => None end
  | Some (HandlePostMessage _ _) =>
      match handlePostMessage sdk with
      | Throws sent => Some sent
      | Returns => None
      end
  | _ => None
  end.


(** ** Which requests and events touch which session *)

(** The routes that write to the session object. *)
Definition mutating (req : Request) : bool :=
  match req with
  | POST_mcp _ body => isInitRequest body
  | DELETE_mcp _ | GET_sse => true
  | POST_messages _ _ | GET_health | GET_root => false
  end.

(** The one key of the session object an event can write or delete. *)
Definition target (randomUUID : nat -> string) (st : State) (ev : Event)
    : option string :=
  match ev with
  | Incoming (POST_mcp _ body) _ =>
      if isInitRequest body then Some (randomUUID (uuids st)) else None
  | Incoming GET_sse _ => Some (randomUUID (uuids st))
  | Incoming (DELETE_mcp hdr) _ => Js.present hdr
  | Incoming _ _ => None
  | ConnectionClosed sid => Some sid
  end.

(** Every live SSE session carries the router's [onclose] callback. *)
Definition listening (st : State) : Prop :=
  forall sid t, transports st !! sid = Some t ->
    kind t = SSEServerTransport -> sid ∈ closeListeners st.

(** ** The tools with one backend request *)

Module Tools.

Unset Elimination Schemes.

(** A JSON value, with [undefined] for what a property read may give. *)
Inductive Json :=
| JUndefined
| JNull
| JBool (b : bool)
| JNumber (n : Z)
| JString (s : string)
| JArray (items : list Json)
| JObject (fields : list (string * Json)).

Set Elimination Schemes.

Fixpoint field (key : string) (fields : list (string * Json)) : Json :=
  match fields with
  | [] => JUndefined
  | (k, v) :: rest => if String.eqb k key then v else field key rest
  end.

(** [x.key] on a value of type [any], for the keys the tools read (none
    of them is a member of a built-in prototype); [None] is the TypeError
    of reading a property of [undefined] or [null]. *)
Definition get (x : Json) (key : string) : option Json :=
  match x with
  | JUndefined | JNull => None
  | JObject fields => Some (field key fields)
  | _ => Some JUndefined
  end.

(** [edges.map((e) => e.node)]: only an array has a [map] to call. *)
Definition map_nodes (edges : Json) : option Json :=
  match edges with
  | JArray items => JArray <$> mapM (fun e => get e "node") items
  | _ => None
  end.

(** [client.request(document, values)] with values of any JSON type. *)
Record Call := {
  document : Query;
  values : list (string * Json)
}.

(** A validated call of a tool: the arguments its schema declares, an
    optional one being [None] when the caller left it out. *)
Inductive Invocation :=
| list_projects
| get_project (projectId : string)
| list_services (projectId : string)
| list_deployments (projectId serviceId : string)
| get_deployment_logs (deploymentId : string) (limit : option Z)
| list_variables (projectId environmentId serviceId : string)
| list_environments (projectId : string)
| create_project (name : string) (description : option string)
| create_service (projectId name : string)
| deploy_from_github (projectId repo : string) (branch : option string)
| create_domain (serviceId environmentId : string)
| set_variable (projectId environmentId serviceId name value : string)
| restart_service (serviceId environmentId : string)
| delete_project (projectId : string)
| delete_service (serviceId : string)
| delete_variable (projectId environmentId serviceId name : string).

Definition tool_name (t : Invocation) : string :=
  match t with
  | list_projects => "list_projects"
  | get_project _ => "get_project"
  | list_services _ => "list_services"
  | list_deployments _ _ => "list_deployments"
  | get_deployment_logs _ _ => "get_deployment_logs"
  | list_variables _ _ _ => "list_variables"
  | list_environments _ => "list_environments"
  | create_project _ _ => "create_project"
  | create_service _ _ => "create_service"
  | deploy_from_github _ _ _ => "deploy_from_github"
  | create_domain _ _ => "create_domain"
  | set_variable _ _ _ _ _ => "set_variable"
  | restart_service _ _ => "restart_service"
  | delete_project _ => "delete_project"
  | delete_service _ => "delete_service"
  | delete_variable _ _ _ _ => "delete_variable"
  end.

(** An optional argument is a property of [args] only when given. *)
Definition optional (key : string) (v : option string) : list (string * Json) :=
  match v with
  | Some s => [(key, JString s)]
  | None => []
  end.

(** [limit || 100] *)
Definition limit_or_100 (limit : option Z) : Z :=
  match limit with
  | Some n => if n =? 0 then 100 else n
  | None => 100
  end.

(** The request of each tool callback. *)
Definition tool_request (t : Invocation) : Call :=
  match t with
  | list_projects => {| document := listProjects; values := [] |}
  | get_project projectId =>
      {| document := getProject; values := [("id", JString projectId)] |}
  | list_services projectId =>
      {| document := listServices;
         values := [("projectId", JString projectId)] |}
  | list_deployments projectId serviceId =>
      {| document := listDeployments;
         values := [("projectId", JString projectId);
                    ("serviceId", JString serviceId)] |}
  | get_deployment_logs deploymentId limit =>
      {| document := getDeploymentLogs;
         values := [("deploymentId", JString deploymentId);
                    ("limit", JNumber (limit_or_100 limit))] |}
  | list_variables projectId environmentId serviceId =>
      {| document := listVariables;
         values := [("projectId", JString projectId);
                    ("environmentId", JString environmentId);
                    ("serviceId", JString serviceId)] |}
  | list_environments projectId =>
      {| document := listEnvironments;
         values := [("projectId", JString projectId)] |}
  | create_project name description =>
      {| document := createProject;
         values := ("name", JString name) :: optional "description" description |}
  | create_service projectId name =>
      {| document := createService;
         values := [("projectId", JString projectId); ("name", JString name)] |}
  | deploy_from_github projectId repo branch =>
      {| document := deployFromGithub;
         values := ("projectId", JString projectId) :: ("repo", JString repo)
                   :: optional "branch" branch |}
  | create_domain serviceId environmentId =>
      {| document := createDomain;
         values := [("serviceId", JString serviceId);
                    ("environmentId", JString environmentId)] |}
  | set_variable projectId environmentId serviceId name value =>
      {| document := setVariable;
         values := [("projectId", JString projectId);
                    ("environmentId", JString environmentId);
                    ("serviceId", JString serviceId);
                    ("name", JString name);
                    ("value", JString value)] |}
  | restart_service serviceId environmentId =>
      {| document := restartService;
         values := [("serviceId", JString serviceId);
                    ("environmentId", JString environmentId)] |}
  | delete_project projectId =>
      {| document := deleteProject; values := [("id", JString projectId)] |}
  | delete_service serviceId =>
      {| document := deleteService; values := [("id", JString serviceId)] |}
  | delete_variable projectId environmentId serviceId name =>
      {| document := deleteVariable;
         values := [("projectId", JString projectId);
                    ("environmentId", JString environmentId);
                    ("serviceId", JString serviceId);
                    ("name", JString name)] |}
  end.

Definition done_with (key : string) (v : Json) : Json :=
  JObject [("success", JBool true); (key, v)].

(** The value each callback hands to [JSON.stringify] once the request
    is fulfilled with [data]; [None] is a TypeError. *)
Definition tool_result (t : Invocation) (data : Json) : option Json :=
  match t with
  | list_projects =>
      projects ← get data "projects"; edges ← get projects "edges";
      map_nodes edges
  | get_project _ => get data "project"
  | list_services _ =>
      project ← get data "project"; services ← get project "services";
      edges ← get services "edges"; map_nodes edges
  | list_deployments _ _ =>
      deployments ← get data "deployments"; edges ← get deployments "edges";
      map_nodes edges
  | get_deployment_logs _ _ => get data "deploymentLogs"
  | list_variables _ _ _ => get data "variables"
  | list_environments _ =>
      project ← get data "project"; environments ← get project "environments";
      edges ← get environments "edges"; map_nodes edges
  | create_project _ _ => get data "projectCreate"
  | create_service _ _ => get data "serviceCreate"
  | deploy_from_github _ _ _ => get data "serviceCreate"
  | create_domain _ _ => get data "serviceDomainCreate"
  | set_variable _ _ _ name _ => Some (done_with "name" (JString name))
  | restart_service _ _ =>
      Some (done_with "message" (JString "Service restarting"))
  | delete_project _ => Some (done_with "message" (JString "Project deleted"))
  | delete_service _ => Some (done_with "message" (JString "Service deleted"))
  | delete_variable _ _ _ name => Some (done_with "name" (JString name))
  end.

(** A tool callback: one awaited request, then the result. *)
Definition execute (respond : list Call -> Call -> Settled Json)
    (t : Invocation) (log : list Call) : list Call * Settled Json :=
  let c := tool_request t in
  (log ++ [c],
   match respond log c with
   | Fulfilled data =>
       match tool_result t data with
       | Some v => Fulfilled v
       | None => RejectedWith "TypeError"
       end
   | RejectedWith e => RejectedWith e
   end).

(** The names under which [createMcpServer] registers its tools, in
    order. *)
Definition registered : list string :=
  [ "list_projects"; "get_project"; "list_services"; "list_deployments";
    "get_deployment_logs"; "list_variables"; "list_environments";
    "create_project"; "create_service"; "deploy_from_github"; "create_domain";
    "set_variable"; "set_variables_bulk"; "restart_service";
    "delete_project"; "delete_service"; "delete_variable" ].

(** The [queries] table, read as structure: the variables each document
    declares, a [!] making one required, and the path from [data] to what
    the document selects ([edges], if the selection is a connection). *)
Record Document := {
  parameters : list (string * bool);
  selection : list string;
  connection : bool
}.

Definition queries (q : Query) : Document :=
  match q with
  | listProjects =>
      {| parameters := []; selection := ["projects"]; connection := true |}
  | getProject =>
      {| parameters := [("id", true)]; selection := ["project"];
         connection := false |}
  | listServices =>
      {| parameters := [("projectId", true)];
         selection := ["project"; "services"]; connection := true |}
  | listDeployments =>
      {| parameters := [("projectId", true); ("serviceId", true)];
         selection := ["deployments"]; connection := true |}
  | getDeploymentLogs =>
      {| parameters := [("deploymentId", true); ("limit", false)];
         selection := ["deploymentLogs"]; connection := false |}
  | listVariables =>
      {| parameters := [("projectId", true); ("environmentId", true);
                        ("serviceId", true)];
         selection := ["variables"]; connection := false |}
  | listEnvironments =>
      {| parameters := [("projectId", true)];
         selection := ["project"; "environments"]; connection := true |}
  | createProject =>
      {| parameters := [("name", true); ("description", false)];
         selection := ["projectCreate"]; connection := false |}
  | createService =>
      {| parameters := [("projectId", true); ("name", true)];
         selection := ["serviceCreate"]; connection := false |}
  | deployFromGithub =>
      {| parameters := [("projectId", true); ("repo", true); ("branch", false)];
         selection := ["serviceCreate"]; connection := false |}
  | createDomain =>
      {| parameters := [("serviceId", true); ("environmentId", true)];
         selection := ["serviceDomainCreate"]; connection := false |}
  | setVariable =>
      {| parameters := [("projectId", true); ("environmentId", true);
                        ("serviceId", true); ("name", true); ("value", true)];
         selection := ["variableUpsert"]; connection := false |}
  | restartService =>
      {| parameters := [("serviceId", true); ("environmentId", true)];
         selection := ["serviceInstanceRedeploy"]; connection := false |}
  | deleteProject =>
      {| parameters := [("id", true)]; selection := ["projectDelete"];
         connection := false |}
  | deleteService =>
      {| parameters := [("id", true)]; selection := ["serviceDelete"];
         connection := false |}
  | deleteVariable =>
      {| parameters := [("projectId", true); ("environmentId", true);
                        ("serviceId", true); ("name", true)];
         selection := ["variableDelete"]; connection := false |}
  end.

(** The tools that read [data]; the others only await the request. *)
Definition reads_data (t : Invocation) : bool :=
  match t with
  | set_variable _ _ _ _ _ | restart_service _ _ | delete_project _
  | delete_service _ | delete_variable _ _ _ _ => false
  | _ => true
  end.

(** The response a server gives a document: [v] under the selected
    path. *)
Fixpoint nest (path : list string) (v : Json) : Json :=
  match path with
  | [] => v
  | key :: rest => JObject [(key, nest rest v)]
  end.

(** One edge of a connection, with its cursor beside the node. *)
Definition edge (node : Json) : Json :=
  JObject [("cursor", JString "c"); ("node", node)].

(** The request of the bulk command, with values of JSON type. *)
Definition of_backend_call (c : BackendCall) : Call :=
  {| document := query c;
     values := (fun kv => (kv.1, JString kv.2)) <$> variables c |}.

End Tools.

(** ** The CORS middleware *)

(** The four headers the middleware sets on every response. *)
Definition cors_headers : list (string * string) :=
  [ ("Access-Control-Allow-Origin", "*");
    ("Access-Control-Allow-Methods", "GET, POST, DELETE, OPTIONS");
    ("Access-Control-Allow-Headers",
     "Content-Type, Authorization, Mcp-Session-Id, Accept");
    ("Access-Control-Expose-Headers", "Mcp-Session-Id") ].

(** The middleware: the headers, and for [OPTIONS] the response that
    ends the request before any route; [None] is [next()]. *)
Definition cors (method : string) : list (string * string) * option Response :=
  (cors_headers,
   if String.eqb method "OPTIONS" then Some (StatusOnly 200) else None).

(** The value of a header among those set. *)
Fixpoint header (name : string) (headers : list (string * string)) : string :=
  match headers with
  | [] => ""
  | (k, v) :: rest => if String.eqb k name then v else header name rest
  end.

(** The items of a comma-separated header value, blanks after a comma
    dropped; [item] is the item read so far, in reverse. *)
Fixpoint items_from (item : list Ascii.ascii) (value : string) : list string :=
  match value with
  | EmptyString => [String.string_of_list_ascii (rev item)]
  | String c rest =>
      if String.eqb (String c "") "," then
        String.string_of_list_ascii (rev item) :: items_from [] rest
      else if String.eqb (String c "") " " then
        match item with
        | [] => items_from [] rest
        | _ => items_from (c :: item) rest
        end
      else items_from (c :: item) rest
  end.

Definition items (value : string) : list string := items_from [] value.

(** Header names compare without regard to case. *)
Definition lower_ascii (c : Ascii.ascii) : Ascii.ascii :=
  let n := Ascii.nat_of_ascii c in
  if andb (Nat.leb 65 n) (Nat.leb n 90) then Ascii.ascii_of_nat (n + 32) else c.

Fixpoint lower (s : string) : string :=
  match s with
  | EmptyString => EmptyString
  | String c rest => String (lower_ascii c) (lower rest)
  end.

(** The method each route is registered for. *)
Definition method_of (req : Request) : string :=
  match req with
  | POST_mcp _ _ | POST_messages _ _ => "POST"
  | DELETE_mcp _ => "DELETE"
  | GET_sse | GET_health | GET_root => "GET"
  end.

(** The header [POST /mcp] and [DELETE /mcp] read the session id from. *)
Definition session_header_name : string := "mcp-session-id".

(** * Properties *)

(** ** The bulk variable command *)

Section RegistryProperties.

Variable respond : list BackendCall -> BackendCall -> Settled string.

Lemma bulk_loop_accepted a entries results log :
  accepted respond log (setVariableCall a <$> entries) ->
  bulk_loop respond a entries results log
  = (log ++ (setVariableCall a <$> entries),
     Fulfilled (results ++ (succeeded <$> entries))).
Proof.
  revert results log.
  induction entries as [|entry rest IH]; intros results log Hacc; simpl.
  - unfold resolve. by rewrite !app_nil_r.
  - destruct Hacc as [[data Hdata] Hrest].
    unfold await, request. rewrite Hdata.
    rewrite (IH _ _ Hrest). by rewrite <- !app_assoc.
Qed.

Lemma bulk_loop_rejected a pre entry post results log err :
  accepted respond log (setVariableCall a <$> pre) ->
  respond (log ++ (setVariableCall a <$> pre)) (setVariableCall a entry)
  = RejectedWith err ->
  bulk_loop respond a (pre ++ entry :: post) results log
  = (log ++ (setVariableCall a <$> pre) ++ [setVariableCall a entry],
     RejectedWith err).
Proof.
  revert results log.
  induction pre as [|e pre IH]; intros results log Hacc Hrej; simpl in *.
  - rewrite app_nil_r in Hrej. unfold await, request. by rewrite Hrej.
  - destruct Hacc as [[data Hdata] Hrest].
    unfold await, request. rewrite Hdata.
    rewrite (IH _ (log ++ [setVariableCall a e])); [|done|].
    + by rewrite <- !app_assoc.
    + by rewrite <- app_assoc.
Qed.

(** The log only grows, by upserts for a prefix of the entries. *)
Lemma bulk_loop_trace a entries results log :
  exists n,
    (n <= length entries)%nat /\
    (bulk_loop respond a entries results log).1
    = log ++ (setVariableCall a <$> take n entries) /\
    match (bulk_loop respond a entries results log).2 with
    | Fulfilled out =>
        n = length entries /\ out = results ++ (succeeded <$> entries) /\
        accepted respond log (setVariableCall a <$> entries)
    | RejectedWith err =>
        exists pre entry post,
          entries = pre ++ entry :: post /\ n = S (length pre) /\
          accepted respond log (setVariableCall a <$> pre) /\
          respond (log ++ (setVariableCall a <$> pre)) (setVariableCall a entry)
          = RejectedWith err
    end.
Proof.
  revert results log.
  induction entries as [|entry rest IH]; intros results log; simpl.
  - exists 0%nat. unfold resolve; simpl. by rewrite !app_nil_r.
  - unfold await, request.
    destruct (respond log (setVariableCall a entry)) as [data|err] eqn:Hr.
    + destruct (IH (results ++ [succeeded entry]) (log ++ [setVariableCall a entry]))
        as (n & Hn & Hlog & Hres).
      exists (S n). split; [simpl; lia|]. split.
      * unfold succeeded in Hlog. rewrite Hlog. simpl. by rewrite <- app_assoc.
      * unfold succeeded in Hres |- *.
        destruct (bulk_loop respond a rest _ _).2 as [out|err].
        -- destruct Hres as (-> & -> & Hacc). repeat split; eauto.
           by rewrite <- app_assoc.
        -- destruct Hres as (pre & e & post & -> & -> & Hacc & Hrej).
           exists (entry :: pre), e, post. simpl. repeat split; eauto.
           by rewrite <- app_assoc in Hrej.
    + exists 1%nat. simpl. split; [lia|]. split; [by destruct rest|].
      exists [], entry, rest. simpl. rewrite app_nil_r. by repeat split.
Qed.

End RegistryProperties.

Section BulkCommand.

Variable respond : list BackendCall -> BackendCall -> Settled string.

(** C3: the requests of [set_variables_bulk] go out one per key, in the
    order of the entries; when the request for some key is rejected the
    loop stops there, so that no request is issued for a later key, and
    the requests made for the earlier keys stay as they are: the log is
    the old one followed by one upsert per earlier key and the failing
    one, with nothing that undoes them. *)
Theorem set_variables_bulk_stops_at_first_failure a pre entry post log err :
  bulkVariables a = pre ++ entry :: post ->
  accepted respond log (setVariableCall a <$> pre) ->
  respond (log ++ (setVariableCall a <$> pre)) (setVariableCall a entry)
  = RejectedWith err ->
  set_variables_bulk respond a log
  = (log ++ (setVariableCall a <$> pre ++ [entry]), RejectedWith err)
  /\ Forall (fun c => query c = setVariable) (setVariableCall a <$> pre ++ [entry]).
Proof.
  intros Hentries Hacc Hrej. split.
  - unfold set_variables_bulk. rewrite Hentries.
    rewrite (bulk_loop_rejected respond a pre entry post [] log err Hacc Hrej).
    by rewrite fmap_app.
  - apply Forall_fmap, Forall_true. done.
Qed.

(** C4, as the code has it: [set_variables_bulk] issues one request per
    key in order, up to and including the first one that is rejected.
    When every request is fulfilled the result reports success for every
    key, in order.  When one is rejected no later key is attempted and
    the command as a whole is rejected with that error: no per-key
    outcome is reported. *)
Theorem set_variables_bulk_outcome a log :
  exists n,
    (n <= length (bulkVariables a))%nat /\
    (set_variables_bulk respond a log).1
    = log ++ (setVariableCall a <$> take n (bulkVariables a)) /\
    match (set_variables_bulk respond a log).2 with
    | Fulfilled out =>
        n = length (bulkVariables a) /\
        out = succeeded <$> bulkVariables a /\
        accepted respond log (setVariableCall a <$> bulkVariables a)
    | RejectedWith err =>
        exists pre entry post,
          bulkVariables a = pre ++ entry :: post /\ n = S (length pre) /\
          accepted respond log (setVariableCall a <$> pre) /\
          respond (log ++ (setVariableCall a <$> pre)) (setVariableCall a entry)
          = RejectedWith err
    end.
Proof.
  unfold set_variables_bulk.
  destruct (bulk_loop_trace respond a (bulkVariables a) [] log)
    as (n & Hn & Hlog & Hres).
  exists n. repeat split; try done.
Qed.

(** When no request is rejected, every key is applied and reported. *)
Lemma set_variables_bulk_all_accepted a log :
  accepted respond log (setVariableCall a <$> bulkVariables a) ->
  set_variables_bulk respond a log
  = (log ++ (setVariableCall a <$> bulkVariables a),
     Fulfilled (succeeded <$> bulkVariables a)).
Proof. intros H. unfold set_variables_bulk. by rewrite bulk_loop_accepted. Qed.

End BulkCommand.

(** The input [{A, B, C}] with the request for [B] rejected: [A] and [B]
    are requested, [C] is not. *)
Lemma set_variables_bulk_stops_at_B :
  set_variables_bulk rejects_B abc_args []
  = ([] ++ (setVariableCall abc_args <$> [("A", "1")] ++ [("B", "2")]),
     RejectedWith "GraphQL error")
  /\ Forall (fun c => query c = setVariable)
       (setVariableCall abc_args <$> [("A", "1")] ++ [("B", "2")]).
Proof.
  apply (set_variables_bulk_stops_at_first_failure rejects_B abc_args
           [("A", "1")] ("B", "2") [("C", "3")] [] "GraphQL error").
  - reflexivity.
  - simpl. split; [by exists "true" | exact I].
  - reflexivity.
Defined.

(** C4 as stated fails on [{A, B, C}] with the request for [B] rejected:
    the command is rejected as a whole, with no result per key, and the
    request for [C] is never issued. *)
Lemma set_variables_bulk_does_not_continue :
  (set_variables_bulk rejects_B abc_args []).2 = RejectedWith "GraphQL error"
  /\ length ((set_variables_bulk rejects_B abc_args []).1) = 2%nat
  /\ (setVariableCall abc_args ("C", "3")
      ∉ (set_variables_bulk rejects_B abc_args []).1)
  /\ length (bulkVariables abc_args) = 3%nat.
Proof.
  repeat split; try reflexivity.
  vm_compute. intros H.
  repeat (apply elem_of_cons in H as [H|H]; [discriminate H|]).
  by apply elem_of_nil in H.
Qed.

(** ** The session object *)

Lemma get_own {A} (obj : gmap string A) key a :
  obj !! key = Some a -> Js.get obj key = Js.Own a.
Proof. intros H. unfold Js.get. by rewrite H. Qed.

Lemma get_undefined {A} (obj : gmap string A) key :
  obj !! key = None -> key ∉ Js.Object_prototype -> Js.get obj key = Js.Undefined.
Proof. intros H Hp. unfold Js.get. rewrite H. by rewrite bool_decide_eq_false_2. Qed.

Lemma get_inherited {A} (obj : gmap string A) key :
  obj !! key = None -> key ∈ Js.Object_prototype -> Js.get obj key = Js.Inherited key.
Proof. intros H Hp. unfold Js.get. rewrite H. by rewrite bool_decide_eq_true_2. Qed.

Lemma present_Some s sid : Js.present s = Some sid -> s = Some sid /\ sid <> "".
Proof.
  destruct s as [k|]; simpl; [|done].
  destruct (String.eqb k "") eqn:E; [done|].
  intros [= ->]. split; [done|]. intros ->. by rewrite String.eqb_refl in E.
Qed.

Lemma present_nonempty sid : sid <> "" -> Js.present (Some sid) = Some sid.
Proof.
  intros H. simpl. destruct (String.eqb sid "") eqn:E; [|done].
  by apply String.eqb_eq in E.
Qed.

Lemma delete_transport_twice sid st :
  delete_transport sid (delete_transport sid st) = delete_transport sid st.
Proof.
  unfold delete_transport; simpl. f_equal.
  apply delete_id. apply lookup_delete_eq.
Qed.

Lemma delete_transport_absent sid st :
  transports st !! sid = None -> delete_transport sid st = st.
Proof.
  intros H. destruct st as [m u s l]; unfold delete_transport; simpl in *.
  f_equal. by apply delete_id.
Qed.

Section RouterProperties.

Variable randomUUID : nat -> string.

(** ** [POST /mcp] *)

(** A request that is no initialize message, whose header is absent,
    empty, or names neither a session nor a member of [Object.prototype],
    is rejected with 400 and code -32000 without any SDK call. *)
Lemma post_mcp_rejects_unknown_session st hdr body sdk :
  isInitRequest body = false ->
  (forall sid, Js.present hdr = Some sid ->
     transports st !! sid = None /\ sid ∉ Js.Object_prototype) ->
  post_mcp randomUUID st hdr body sdk
  = {| state := st;
       completion := Responded (JsonRpcError 400 (-32000)
                                  "Invalid or missing session" (id_or_null body));
       calls := [] |}.
Proof.
  intros Hinit Hunknown. unfold post_mcp. rewrite Hinit.
  destruct (Js.present hdr) as [sid|] eqn:Hp; [|done].
  destruct (Hunknown sid eq_refl) as [Hnone Hproto].
  by rewrite (get_undefined _ _ Hnone Hproto).
Qed.

(** The forward branch: the streamable transport found under the header
    is handed the request, and a failure before the headers becomes 500
    with code -32603. *)
Lemma post_mcp_forwards st sid t body sdk :
  isInitRequest body = false ->
  sid <> "" ->
  transports st !! sid = Some t ->
  kind t = StreamableHTTPServerTransport ->
  post_mcp randomUUID st (Some sid) body sdk
  = {| state := st;
       completion :=
         Responded
           match handleRequest sdk with
           | Returns => WrittenByTransport t body
           | Throws true => LoggedOnly
           | Throws false =>
               JsonRpcError 500 (-32603) "Internal server error" (id_or_null body)
           end;
       calls := [HandleRequest t body] |}.
Proof.
  intros Hinit Hne Hlive Hkind. unfold post_mcp. rewrite Hinit.
  rewrite (present_nonempty _ Hne), (get_own _ _ _ Hlive), Hkind.
  destruct (handleRequest sdk) as [|[]]; reflexivity.
Qed.

(** With an SSE transport under the header the call of [handleRequest]
    is a TypeError: no SDK call, 500 with code -32603. *)
Lemma post_mcp_on_stream st sid t body sdk :
  isInitRequest body = false ->
  sid <> "" ->
  transports st !! sid = Some t ->
  kind t = SSEServerTransport ->
  post_mcp randomUUID st (Some sid) body sdk
  = {| state := st;
       completion :=
         Responded (JsonRpcError 500 (-32603) "Internal server error"
                      (id_or_null body));
       calls := [] |}.
Proof.
  intros Hinit Hne Hlive Hkind. unfold post_mcp. rewrite Hinit.
  by rewrite (present_nonempty _ Hne), (get_own _ _ _ Hlive), Hkind.
Qed.

(** C1: on a server with no session at all, a [POST /mcp] that is no
    initialize message and carries the header [Mcp-Session-Id: constructor]
    is answered 500 with code -32603, where the specification requires
    400 with code -32000: the header names no session, but it names a
    property the session object inherits. *)
Theorem post_mcp_inherited_name_is_internal_error sdk :
  isInitRequest tools_list_body = false
  /\ transports initial !! "constructor" = None
  /\ post_mcp randomUUID initial (Some "constructor") tools_list_body sdk
     = {| state := initial;
          completion := Responded (JsonRpcError 500 (-32603)
                                     "Internal server error" (Js.JsNumber 2));
          calls := [] |}.
Proof. repeat split. Qed.

(** ** [DELETE /mcp] *)

(** Destroying a live session whose transport closes: 204, the entry is
    removed and nothing else changes. *)
Lemma delete_mcp_live st sid t sdk :
  sid <> "" ->
  transports st !! sid = Some t ->
  sessionId t = sid ->
  close sdk = CloseReturns ->
  delete_mcp st (Some sid) sdk
  = {| state := delete_transport sid st;
       completion := Responded (StatusOnly 204);
       calls := [Close t] |}.
Proof.
  intros Hne Hlive Hsid Hclose. unfold delete_mcp.
  rewrite (present_nonempty _ Hne), (get_own _ _ _ Hlive), Hclose.
  f_equal. unfold run_onclose. rewrite Hsid.
  destruct (kind t); [done|]. apply delete_transport_twice.
Qed.

(** An absent or empty header, or one that names neither a session nor
    a member of [Object.prototype]: 404, nothing is called or changed. *)
Lemma delete_mcp_unknown st hdr sdk :
  (forall sid, Js.present hdr = Some sid ->
     transports st !! sid = None /\ sid ∉ Js.Object_prototype) ->
  delete_mcp st hdr sdk
  = {| state := st;
       completion := Responded (JsonError 404 "Session not found");
       calls := [] |}.
Proof.
  intros Hunknown. unfold delete_mcp.
  destruct (Js.present hdr) as [sid|] eqn:Hp; [|done].
  destruct (Hunknown sid eq_refl) as [Hnone Hproto].
  by rewrite (get_undefined _ _ Hnone Hproto).
Qed.

(** Destroying the same session twice: 204, then 404. *)
Lemma delete_mcp_twice st sid t sdk sdk' :
  sid <> "" ->
  sid ∉ Js.Object_prototype ->
  transports st !! sid = Some t ->
  sessionId t = sid ->
  close sdk = CloseReturns ->
  completion (delete_mcp st (Some sid) sdk) = Responded (StatusOnly 204)
  /\ delete_mcp (state (delete_mcp st (Some sid) sdk)) (Some sid) sdk'
     = {| state := delete_transport sid st;
          completion := Responded (JsonError 404 "Session not found");
          calls := [] |}.
Proof.
  intros Hne Hproto Hlive Hsid Hclose.
  rewrite (delete_mcp_live st sid t sdk Hne Hlive Hsid Hclose). simpl.
  split; [done|]. apply delete_mcp_unknown.
  intros sid' Hp. apply present_Some in Hp as [[= <-] _].
  split; [apply lookup_delete_eq | done].
Qed.

(** When [close] throws, nothing catches it: the handler's promise is
    rejected, no status is sent and the entry of a streamable session
    stays in the object. *)
Lemma delete_mcp_close_throws st sid t ran sdk :
  sid <> "" ->
  transports st !! sid = Some t ->
  close sdk = CloseThrows ran ->
  completion (delete_mcp st (Some sid) sdk) = Unhandled
  /\ calls (delete_mcp st (Some sid) sdk) = [Close t]
  /\ (kind t = StreamableHTTPServerTransport ->
      state (delete_mcp st (Some sid) sdk) = st).
Proof.
  intros Hne Hlive Hclose. unfold delete_mcp.
  rewrite (present_nonempty _ Hne), (get_own _ _ _ Hlive), Hclose. simpl.
  repeat split. intros Hk. unfold run_onclose. rewrite Hk. by destruct ran.
Qed.

(** The state after one initialize request, with the session
    [sampleUUID 0] live. *)
Lemma one_session_live :
  transports (run sampleUUID initial
                [Incoming (POST_mcp None initialize_body) ok_sdk])
    !! sampleUUID 0
  = Some {| kind := StreamableHTTPServerTransport; sessionId := sampleUUID 0 |}.
Proof. simpl. apply lookup_insert_eq. Qed.

(** C2: two inputs on which [DELETE /mcp] departs from the specified
    destroy.  With the header [constructor], which names no session, the
    answer is 204, and 204 again on a second request, where 404 is
    specified.
    With the id of a live session whose transport fails to close, the
    failure is not swallowed: the promise of the handler is rejected, no
    204 is sent and the entry is still there. *)
Theorem delete_mcp_inherited_name_and_close_failure sdk :
  (transports initial !! "constructor" = None
   /\ delete_mcp initial (Some "constructor") sdk
      = {| state := initial; completion := Responded (StatusOnly 204);
           calls := [] |}
   /\ completion
        (delete_mcp (state (delete_mcp initial (Some "constructor") sdk))
           (Some "constructor") sdk)
      = Responded (StatusOnly 204))
  /\ (let st := run sampleUUID initial
                  [Incoming (POST_mcp None initialize_body) ok_sdk] in
      let h := delete_mcp st (Some (sampleUUID 0)) failing_close_sdk in
      completion h = Unhandled
      /\ state h = st
      /\ is_Some (transports (state h) !! sampleUUID 0)).
Proof.
  split.
  - repeat split.
  - pose proof one_session_live as Hlive. cbv zeta.
    destruct (delete_mcp_close_throws _ (sampleUUID 0) _ false failing_close_sdk
                ltac:(discriminate) Hlive eq_refl) as (Hc & _ & Hst).
    rewrite Hc, (Hst eq_refl). repeat split. rewrite Hlive. by eexists.
Qed.

(** ** Failures of SDK calls *)

(** Every route but [DELETE /mcp] ends with a response (or, once the
    headers are out, with the failure logged), whatever the SDK does. *)
Lemma other_routes_respond st req sdk :
  (forall hdr, req <> DELETE_mcp hdr) ->
  exists r, completion (route randomUUID st req sdk) = Responded r.
Proof.
  intros Hreq. destruct req as [h b|h| |q b| |]; simpl.
  - unfold post_mcp. destruct (isInitRequest b).
    + destruct (connect sdk); eauto.
    + destruct (Js.present h); [|eauto].
      destruct (Js.get _ _) as [[[] ?]| |]; eauto.
  - by destruct (Hreq h).
  - unfold get_sse. destruct (connect sdk); eauto.
  - unfold post_messages. destruct (Js.present q); [|eauto].
    destruct (Js.get _ _) as [[[] ?]| |]; eauto.
  - eauto.
  - eauto.
Qed.

(** On [POST /mcp] a failure of the engine before the headers are sent
    is answered 500 with code -32603, in the initialize branch too. *)
Lemma post_mcp_initialize_failure st hdr body sdk :
  isInitRequest body = true ->
  connect sdk = Throws false
  \/ (connect sdk = Returns /\ handleRequest sdk = Throws false) ->
  completion (post_mcp randomUUID st hdr body sdk)
  = Responded (JsonRpcError 500 (-32603) "Internal server error" (id_or_null body)).
Proof.
  intros Hinit H. unfold post_mcp. rewrite Hinit.
  destruct H as [->|[-> ->]]; reflexivity.
Qed.

(** ** Session creation on [POST /mcp] *)

(** The entry is written before the engine is connected, so it is there
    whatever the SDK does afterwards. *)
Lemma post_mcp_initialize_stores st hdr body sdk :
  isInitRequest body = true ->
  transports (state (post_mcp randomUUID st hdr body sdk))
  = <[randomUUID (uuids st) :=
        {| kind := StreamableHTTPServerTransport;
           sessionId := randomUUID (uuids st) |}]> (transports st)
  /\ uuids (state (post_mcp randomUUID st hdr body sdk)) = S (uuids st)
  /\ servers (state (post_mcp randomUUID st hdr body sdk)) = S (servers st).
Proof.
  intros Hinit. unfold post_mcp. rewrite Hinit.
  destruct (connect sdk); done.
Qed.

Section Initialize.

Variable sdk_session_header : Transport -> option RpcBody -> option string.

(** What the SDK documents of a streamable transport: it answers an
    initialize message with the id of its [sessionIdGenerator] in the
    [Mcp-Session-Id] header. *)
Hypothesis sdk_initialize_header : forall t body,
  kind t = StreamableHTTPServerTransport ->
  isInitRequest body = true ->
  sdk_session_header t body = Some (sessionId t).

(** C6: a [POST /mcp] with an initialize body draws a new id from
    [randomUUID], builds a streamable transport whose generator returns
    that id, stores it under that id, builds a new server, connects it to
    the transport and hands the transport the initialize body; the
    response is the one the transport writes, with the new id in
    [Mcp-Session-Id].  (The SDK calls are taken to return.) *)
Theorem post_mcp_initialize st hdr body sdk :
  isInitRequest body = true ->
  connect sdk = Returns ->
  handleRequest sdk = Returns ->
  let sid := randomUUID (uuids st) in
  let t := {| kind := StreamableHTTPServerTransport; sessionId := sid |} in
  let h := post_mcp randomUUID st hdr body sdk in
  transports (state h) !! sid = Some t
  /\ uuids (state h) = S (uuids st)
  /\ servers (state h) = S (servers st)
  /\ calls h = [Construct t; CreateMcpServer (servers st);
                Connect (servers st) t; HandleRequest t body]
  /\ completion h = Responded (WrittenByTransport t body)
  /\ mcp_session_id sdk_session_header (WrittenByTransport t body) = Some sid.
Proof.
  intros Hinit Hconnect Hhandle. cbv zeta.
  unfold post_mcp. rewrite Hinit, Hconnect, Hhandle. simpl.
  repeat split.
  - apply lookup_insert_eq.
  - by apply sdk_initialize_header.
Qed.

End Initialize.

End RouterProperties.

(** C5: [DELETE /mcp] for a live session whose transport fails to close.
    The route has no try/catch around [transport.close()], so the
    failure leaves the handler: its promise is rejected and no response
    is written.  The same failure on [POST /mcp], which has one, is
    answered 500 with code -32603. *)
Theorem delete_route_does_not_catch_close_failure :
  let st := run sampleUUID initial
              [Incoming (POST_mcp None initialize_body) ok_sdk] in
  let t := {| kind := StreamableHTTPServerTransport;
              sessionId := sampleUUID 0 |} in
  transports st !! sampleUUID 0 = Some t
  /\ route sampleUUID st (DELETE_mcp (Some (sampleUUID 0))) failing_close_sdk
     = {| state := st; completion := Unhandled; calls := [Close t] |}
  /\ route sampleUUID st (POST_mcp (Some (sampleUUID 0)) tools_list_body)
       failing_handle_sdk
     = {| state := st;
          completion := Responded (JsonRpcError 500 (-32603)
                                     "Internal server error" (Js.JsNumber 2));
          calls := [HandleRequest t tools_list_body] |}.
Proof.
  cbv zeta. pose proof one_session_live as Hlive.
  set (st := run sampleUUID initial _) in *.
  split; [exact Hlive|]. split.
  - unfold route, delete_mcp.
    rewrite present_nonempty by discriminate.
    by rewrite (get_own _ _ _ Hlive).
  - unfold route.
    assert (Hne : sampleUUID 0 <> "") by discriminate.
    by rewrite (post_mcp_forwards sampleUUID st (sampleUUID 0) _ tools_list_body
                  failing_handle_sdk eq_refl Hne Hlive eq_refl).
Qed.

Lemma header_on_initialize_spec t body :
  kind t = StreamableHTTPServerTransport ->
  isInitRequest body = true ->
  header_on_initialize t body = Some (sessionId t).
Proof. intros Hk Hi. unfold header_on_initialize. by rewrite Hk, Hi. Qed.

(** The first initialize request on a fresh server. *)
Lemma post_mcp_initialize_first :
  let sid := sampleUUID (uuids initial) in
  let t := {| kind := StreamableHTTPServerTransport; sessionId := sid |} in
  let h := post_mcp sampleUUID initial None initialize_body ok_sdk in
  transports (state h) !! sid = Some t
  /\ uuids (state h) = S (uuids initial)
  /\ servers (state h) = S (servers initial)
  /\ calls h = [Construct t; CreateMcpServer (servers initial);
                Connect (servers initial) t; HandleRequest t initialize_body]
  /\ completion h = Responded (WrittenByTransport t initialize_body)
  /\ mcp_session_id header_on_initialize (WrittenByTransport t initialize_body)
     = Some sid.
Proof.
  apply (post_mcp_initialize sampleUUID header_on_initialize
           header_on_initialize_spec initial None initialize_body ok_sdk);
    reflexivity.
Defined.

(** ** [POST /messages] *)

(** C9, as the code has it: with the [sessionId] parameter absent or
    empty the answer is 400; with a non-empty one that names no live SSE
    session (no entry, an entry of the other class, or only a member of
    [Object.prototype]) it is 404 and nothing is called; only with the id
    of a live SSE session is the body handed to that session's
    transport. *)
Theorem post_messages_dispatch st query body sdk :
  post_messages st query body sdk
  = match Js.present query with
    | None =>
        {| state := st;
           completion := Responded (JsonError 400 "Missing sessionId");
           calls := [] |}
    | Some sid =>
        match transports st !! sid with
        | Some ({| kind := SSEServerTransport |} as t) =>
            {| state := st;
               completion :=
                 Responded
                   match handlePostMessage sdk with
                   | Returns => WrittenByTransport t body
                   | Throws true => LoggedOnly
                   | Throws false => JsonError 500 "Internal server error"
                   end;
               calls := [HandlePostMessage t body] |}
        | _ =>
            {| state := st;
               completion := Responded (JsonError 404 "Session not found");
               calls := [] |}
        end
    end.
Proof.
  unfold post_messages. destruct (Js.present query) as [sid|]; [|done].
  unfold Js.get. destruct (transports st !! sid) as [[[] ?]|]; try done.
  by case_bool_decide.
Qed.

(** C9 as stated fails for [POST /messages?sessionId=]: the parameter is
    there, it names no session, and the answer is 400, not 404. *)
Lemma post_messages_empty_sessionId_is_400 :
  transports initial !! "" = None
  /\ completion (post_messages initial (Some "") tools_list_body ok_sdk)
     = Responded (JsonError 400 "Missing sessionId")
  /\ completion (post_messages initial (Some "") tools_list_body ok_sdk)
     <> Responded (JsonError 404 "Session not found").
Proof. repeat split. discriminate. Qed.

(** ** [POST /mcp] with the id of an SSE session *)

Section KindMismatch.

Variable randomUUID : nat -> string.

(** C10, as the code has it: a [POST /mcp] that is no initialize message
    and carries the id of a live SSE session is not rejected as an
    invalid session.  No class is checked: [handleRequest] is called on
    the SSE transport as if it were a streamable one.  An SSE transport
    has no such method, so the call throws before any SDK code runs: no
    SDK call is made, the session object is left as it is, and the
    answer is always the one of the catch block, 500 with code -32603. *)
Theorem post_mcp_on_sse_session_is_internal_error st sid t body sdk :
  isInitRequest body = false ->
  sid <> "" ->
  transports st !! sid = Some t ->
  kind t = SSEServerTransport ->
  let h := post_mcp randomUUID st (Some sid) body sdk in
  calls h = []
  /\ state h = st
  /\ completion h <> Responded (invalid_session body)
  /\ completion h = Responded (mcp_catch body false)
  /\ completion h
     = Responded
         (JsonRpcError 500 (-32603) "Internal server error" (id_or_null body)).
Proof.
  intros Hinit Hne Hlive Hkind. cbv zeta.
  rewrite (post_mcp_on_stream randomUUID st sid t body sdk Hinit Hne Hlive Hkind).
  simpl. repeat split. unfold invalid_session. discriminate.
Qed.

End KindMismatch.

Lemma one_stream_live :
  transports one_stream !! sampleUUID 0
  = Some {| kind := SSEServerTransport; sessionId := sampleUUID 0 |}.
Proof. unfold one_stream. simpl. apply lookup_insert_eq. Qed.

(** A [tools/list] request with the id of the SSE session of
    [one_stream], whatever the SDK would do. *)
Lemma post_mcp_on_sse_session_is_internal_error_example :
  let h := post_mcp sampleUUID one_stream (Some (sampleUUID 0)) tools_list_body
             ok_sdk in
  calls h = []
  /\ state h = one_stream
  /\ completion h <> Responded (invalid_session tools_list_body)
  /\ completion h = Responded (mcp_catch tools_list_body false)
  /\ completion h
     = Responded
         (JsonRpcError 500 (-32603) "Internal server error"
            (id_or_null tools_list_body)).
Proof.
  apply (post_mcp_on_sse_session_is_internal_error sampleUUID one_stream
           (sampleUUID 0)
           {| kind := SSEServerTransport; sessionId := sampleUUID 0 |}
           tools_list_body ok_sdk).
  - reflexivity.
  - discriminate.
  - exact one_stream_live.
  - reflexivity.
Defined.

(** C10 as stated fails when the body is an initialize message: with the
    id of the live SSE session in the header, the request is not handed
    to the SSE transport; a new streamable session is created and the
    request goes to its transport. *)
Lemma post_mcp_initialize_ignores_sse_session :
  let sse := {| kind := SSEServerTransport; sessionId := sampleUUID 0 |} in
  let new := {| kind := StreamableHTTPServerTransport;
                sessionId := sampleUUID 1 |} in
  let h := post_mcp sampleUUID one_stream (Some (sampleUUID 0)) initialize_body
             ok_sdk in
  transports one_stream !! sampleUUID 0 = Some sse
  /\ calls h = [Construct new; CreateMcpServer 1; Connect 1 new;
                HandleRequest new initialize_body]
  /\ calls h <> [HandleRequest sse initialize_body]
  /\ completion h = Responded (WrittenByTransport new initialize_body).
Proof.
  cbv zeta. split; [exact one_stream_live|].
  repeat split. discriminate.
Qed.

(** ** Sessions over a run *)

Lemma well_keyed_delete sid st :
  well_keyed st -> well_keyed (delete_transport sid st).
Proof.
  intros H k t. unfold delete_transport; simpl.
  intros Hk. apply lookup_delete_Some in Hk as [_ Hk]. by apply H.
Qed.

Lemma well_keyed_onclose t st : well_keyed st -> well_keyed (run_onclose t st).
Proof. unfold run_onclose. destruct (kind t); auto using well_keyed_delete. Qed.

Lemma well_keyed_insert k sid m u s l u' s' l' :
  well_keyed {| transports := m; uuids := u; servers := s; closeListeners := l |} ->
  well_keyed {| transports := <[sid := {| kind := k; sessionId := sid |}]> m;
                uuids := u'; servers := s'; closeListeners := l' |}.
Proof.
  intros H key t; simpl. intros Hk.
  apply lookup_insert_Some in Hk as [[<- <-]|[_ Hk]]; [done|]. by apply (H key t).
Qed.

Section Sessions.

Variable randomUUID : nat -> string.

Lemma drawn_delete sid st :
  drawn randomUUID st -> drawn randomUUID (delete_transport sid st).
Proof.
  intros H k. unfold delete_transport; simpl. intros [t Hk].
  apply lookup_delete_Some in Hk as [_ Hk]. apply H. by exists t.
Qed.

Lemma drawn_onclose t st :
  drawn randomUUID st -> drawn randomUUID (run_onclose t st).
Proof. unfold run_onclose. destruct (kind t); auto using drawn_delete. Qed.

Lemma drawn_insert t st l :
  drawn randomUUID st ->
  drawn randomUUID
    {| transports := <[randomUUID (uuids st) := t]> (transports st);
       uuids := S (uuids st); servers := S (servers st);
       closeListeners := l |}.
Proof.
  intros H k; simpl. intros [t' Hk].
  apply lookup_insert_Some in Hk as [[<- _]|[_ Hk]].
  - exists (uuids st). split; [lia | done].
  - destruct (H k) as (i & Hi & ->); [by exists t'|].
    exists i. split; [lia | done].
Qed.

Ltac route_cases :=
  unfold route, post_mcp, delete_mcp, get_sse, post_messages, get_health,
    get_root;
  repeat (case_match; simpl in * ).

Lemma route_well_keyed st req sdk :
  well_keyed st -> well_keyed (state (route randomUUID st req sdk)).
Proof.
  intros H. destruct st as [m u s l].
  destruct req; route_cases;
    eauto using well_keyed_insert, well_keyed_delete, well_keyed_onclose.
Qed.

Lemma route_drawn st req sdk :
  drawn randomUUID st -> drawn randomUUID (state (route randomUUID st req sdk)).
Proof.
  intros H.
  destruct req; route_cases;
    eauto using drawn_insert, drawn_delete, drawn_onclose.
Qed.

Lemma step_well_keyed st ev :
  well_keyed st -> well_keyed (step randomUUID st ev).
Proof.
  intros H. destruct ev as [req sdk|sid]; simpl.
  - by apply route_well_keyed.
  - case_bool_decide; auto using well_keyed_delete.
Qed.

Lemma step_drawn st ev :
  drawn randomUUID st -> drawn randomUUID (step randomUUID st ev).
Proof.
  intros H. destruct ev as [req sdk|sid]; simpl.
  - by apply route_drawn.
  - case_bool_decide; auto using drawn_delete.
Qed.

Lemma run_invariant st evs :
  well_keyed st -> drawn randomUUID st ->
  well_keyed (run randomUUID st evs) /\ drawn randomUUID (run randomUUID st evs).
Proof.
  revert st. induction evs as [|ev evs IH]; intros st Hk Hd; simpl; [done|].
  apply IH; [by apply step_well_keyed | by apply step_drawn].
Qed.

Lemma initial_invariant : well_keyed initial /\ drawn randomUUID initial.
Proof.
  split.
  - intros sid t H. simpl in H. by rewrite lookup_empty in H.
  - intros sid [t H]. simpl in H. by rewrite lookup_empty in H.
Qed.

(** One step changes the keys of the session object as the effects an
    observer sees say. *)
Lemma step_accounts st ev :
  well_keyed st ->
  dom (transports (step randomUUID st ev))
  = foldl account (dom (transports st)) (effects randomUUID st ev).
Proof.
  intros Hk. destruct ev as [req sdk|sid]; simpl.
  - destruct req as [h b|h| |q b| |]; unfold effects_of.
    + unfold route, post_mcp.
      destruct (isInitRequest b); [destruct (connect sdk)|]; simpl;
        rewrite ?dom_insert_L; try done.
      destruct (Js.present h); [|done]. by destruct (Js.get _ _) as [[[] ?]| |].
    + unfold route, delete_mcp.
      destruct (Js.present h) as [sid|] eqn:Hp.
      * apply present_Some in Hp as [-> _].
        unfold Js.get.
        destruct (transports st !! sid) as [t|] eqn:Hlive.
        -- pose proof (Hk _ _ Hlive) as Hsid.
           destruct (close sdk) as [|ran] eqn:Hclose; simpl.
           ++ unfold run_onclose. rewrite Hsid.
              destruct (kind t); simpl; rewrite ?dom_delete_L; [done|].
              apply set_eq; intros x. rewrite !elem_of_difference. tauto.
           ++ unfold closed_stream, run_onclose. rewrite Hclose, Hsid.
              destruct t as [[] sid']; destruct ran; simpl in *; subst;
                rewrite ?dom_delete_L; done.
        -- case_bool_decide; simpl; rewrite ?dom_delete_L; done.
      * by destruct h.
    + unfold route, get_sse. destruct (connect sdk) as [|sent]; simpl.
      * by rewrite dom_insert_L.
      * destruct sent; simpl; by rewrite dom_delete_L, dom_insert_L.
    + unfold route, post_messages.
      destruct (Js.present q); [|done].
      by destruct (Js.get _ _) as [[[] ?]| |].
    + done.
    + done.
  - case_bool_decide; simpl; [by rewrite dom_delete_L | done].
Qed.

Lemma history_accounts st evs :
  well_keyed st ->
  dom (transports (run randomUUID st evs))
  = foldl account (dom (transports st)) (history randomUUID st evs).
Proof.
  revert st. induction evs as [|ev evs IH]; intros st Hk; simpl; [done|].
  rewrite foldl_app, <- (step_accounts st ev Hk).
  apply IH. by apply step_well_keyed.
Qed.

(** C8: after any sequence of requests and connection closes, starting
    from the empty session object, [GET /health] answers
    [{status: "ok", sessions, version: "2.0.0"}] with [sessions] the
    number of sessions created and not yet destroyed. *)
Theorem health_counts_live_sessions evs sdk :
  route randomUUID (run randomUUID initial evs) GET_health sdk
  = {| state := run randomUUID initial evs;
       completion :=
         Responded
           (HealthReport "ok"
              (size (live_sessions (history randomUUID initial evs))) "2.0.0");
       calls := [] |}.
Proof.
  simpl. unfold get_health, Js.keys_length, live_sessions.
  rewrite <- (size_dom (D := gset string)).
  rewrite (history_accounts initial evs (proj1 initial_invariant)).
  simpl. by rewrite dom_empty_L.
Qed.

(** ** Session ids *)





End Sessions.



(** After two creates, one destroy and one more create, [GET /health]
    reports two sessions. *)
Example health_after_create_destroy_create :
  completion (route sampleUUID (run sampleUUID initial create_destroy_create)
                GET_health ok_sdk)
  = Responded (HealthReport "ok" 2 "2.0.0").
Proof. vm_compute. reflexivity. Qed.

(** A destroy for an id that was never created, or an empty header,
    leaves the count as it is and is answered 404. *)
Example delete_unknown_keeps_count :
  let st := run sampleUUID initial create_destroy_create in
  route sampleUUID st (DELETE_mcp (Some (sampleUUID 7))) ok_sdk
  = {| state := st;
       completion := Responded (JsonError 404 "Session not found");
       calls := [] |}
  /\ completion (route sampleUUID st (DELETE_mcp (Some "")) ok_sdk)
     = Responded (JsonError 404 "Session not found")
  /\ completion (route sampleUUID st (DELETE_mcp None) ok_sdk)
     = Responded (JsonError 404 "Session not found").
Proof. vm_compute. repeat split. Qed.

(** * More of the router *)

Lemma post_messages_absent st sid body sdk :
  sid <> "" ->
  transports st !! sid = None ->
  post_messages st (Some sid) body sdk
  = {| state := st;
       completion := Responded (JsonError 404 "Session not found");
       calls := [] |}.
Proof.
  intros Hne Hnone. unfold post_messages, Js.get.
  rewrite (present_nonempty _ Hne), Hnone. by case_bool_decide.
Qed.

Lemma post_messages_stream st sid body sdk :
  sid <> "" ->
  transports st !! sid
  = Some {| kind := SSEServerTransport; sessionId := sid |} ->
  post_messages st (Some sid) body sdk
  = {| state := st;
       completion :=
         Responded
           match handlePostMessage sdk with
           | Returns =>
               WrittenByTransport
                 {| kind := SSEServerTransport; sessionId := sid |} body
           | Throws true => LoggedOnly
           | Throws false => JsonError 500 "Internal server error"
           end;
       calls := [HandlePostMessage
                   {| kind := SSEServerTransport; sessionId := sid |} body] |}.
Proof.
  intros Hne Hlive. unfold post_messages.
  by rewrite (present_nonempty _ Hne), (get_own _ _ _ Hlive).
Qed.

Lemma sample_not_inherited n : sampleUUID n ∉ Js.Object_prototype.
Proof.
  unfold Js.Object_prototype. intros H.
  repeat (apply elem_of_cons in H as [H|H]; [discriminate H|]).
  by apply elem_of_nil in H.
Qed.

Section MoreRouter.

Variable randomUUID : nat -> string.

(** ** [GET /sse] and [POST /messages] *)

(** X1: a [GET /sse] whose connect returns draws a new id, stores an SSE
    transport under it, installs the close callback for it, connects a
    new server and keeps the event stream open; a [POST /messages] with
    that id is then handed to this transport. *)
Theorem get_sse_opens_session st sdk body sdk' :
  connect sdk = Returns ->
  randomUUID (uuids st) <> "" ->
  let sid := randomUUID (uuids st) in
  let t := {| kind := SSEServerTransport; sessionId := sid |} in
  let h := get_sse randomUUID st sdk in
  completion h = Responded (EventStream t)
  /\ calls h = [Construct t; CreateMcpServer (servers st); Connect (servers st) t]
  /\ transports (state h) = <[sid := t]> (transports st)
  /\ sid ∈ closeListeners (state h)
  /\ calls (post_messages (state h) (Some sid) body sdk')
     = [HandlePostMessage t body]
  /\ state (post_messages (state h) (Some sid) body sdk') = state h.
Proof.
  intros Hconnect Hne. cbv zeta. unfold get_sse. rewrite Hconnect. simpl.
  repeat split; try done.
  - set_solver.
  - rewrite post_messages_stream; [done..|]. simpl. apply lookup_insert_eq.
  - rewrite post_messages_stream; [done..|]. simpl. apply lookup_insert_eq.
Qed.

(** X2: when the connection of a new SSE session goes away, the session
    object is what it was before the [GET /sse], and a [POST /messages]
    with the id is answered 404 without any SDK call. *)
Theorem sse_connection_close_destroys st sdk body sdk' :
  connect sdk = Returns ->
  randomUUID (uuids st) <> "" ->
  transports st !! randomUUID (uuids st) = None ->
  let sid := randomUUID (uuids st) in
  let st' := step randomUUID (state (get_sse randomUUID st sdk))
               (ConnectionClosed sid) in
  transports st' = transports st
  /\ post_messages st' (Some sid) body sdk'
     = {| state := st';
          completion := Responded (JsonError 404 "Session not found");
          calls := [] |}.
Proof.
  intros Hconnect Hne Hfresh. cbv zeta.
  unfold get_sse. rewrite Hconnect. simpl.
  rewrite bool_decide_eq_true_2 by set_solver.
  assert (Hback : transports
            (delete_transport (randomUUID (uuids st))
               {| transports :=
                    <[randomUUID (uuids st) :=
                        {| kind := SSEServerTransport;
                           sessionId := randomUUID (uuids st) |}]> (transports st);
                  uuids := S (uuids st); servers := S (servers st);
                  closeListeners := {[randomUUID (uuids st)]} ∪ closeListeners st |})
          = transports st).
  { simpl. by rewrite delete_insert_id. }
  split; [exact Hback|].
  apply post_messages_absent; [done|]. by rewrite Hback.
Qed.

(** X3: when the connect of a new SSE session throws, the entry written
    for it is deleted again, so the session object is what it was; the
    answer is 500, or nothing more once the headers are out. *)
Theorem get_sse_connect_failure_cleans_up st sdk sent :
  connect sdk = Throws sent ->
  transports st !! randomUUID (uuids st) = None ->
  let h := get_sse randomUUID st sdk in
  transports (state h) = transports st
  /\ completion h = Responded (if sent then LoggedOnly else StatusOnly 500)
  /\ completion (get_health (state h)) = completion (get_health st).
Proof.
  intros Hconnect Hfresh. cbv zeta. unfold get_sse. rewrite Hconnect. simpl.
  rewrite delete_insert_id by done. by repeat split.
Qed.

(** ** [POST /mcp] and [DELETE /mcp] *)

(** X4: when the engine fails while a session is being initialised, the
    client is answered 500 with code -32603, but the entry written for
    the new session stays: [GET /health] counts one session more. *)
Theorem post_mcp_initialize_failure_keeps_entry st hdr body sdk :
  isInitRequest body = true ->
  connect sdk = Throws false
  \/ (connect sdk = Returns /\ handleRequest sdk = Throws false) ->
  transports st !! randomUUID (uuids st) = None ->
  let h := post_mcp randomUUID st hdr body sdk in
  completion h
  = Responded (JsonRpcError 500 (-32603) "Internal server error" (id_or_null body))
  /\ transports (state h) !! randomUUID (uuids st)
     = Some {| kind := StreamableHTTPServerTransport;
               sessionId := randomUUID (uuids st) |}
  /\ completion (get_health (state h))
     = Responded (HealthReport "ok" (S (size (transports st))) "2.0.0").
Proof.
  intros Hinit Hfail Hfresh. cbv zeta.
  destruct (post_mcp_initialize_stores randomUUID st hdr body sdk Hinit)
    as (Hm & _ & _).
  split; [by apply post_mcp_initialize_failure|].
  unfold get_health, Js.keys_length. simpl. rewrite Hm.
  split; [apply lookup_insert_eq|]. by rewrite map_size_insert_None.
Qed.

(** X5: create, look up, destroy, look up.  After an initialize request
    the new id resolves: a request with it is handed to the new
    transport.  After a [DELETE /mcp] for it, answered 204, the session
    object is what it was before the session was created, and a request
    with the id is rejected with 400 and code -32000. *)
Theorem streamable_session_round_trip st hdr init body sdk0 sdk1 sdk2 sdk3 :
  isInitRequest init = true ->
  isInitRequest body = false ->
  randomUUID (uuids st) <> "" ->
  randomUUID (uuids st) ∉ Js.Object_prototype ->
  transports st !! randomUUID (uuids st) = None ->
  close sdk2 = CloseReturns ->
  let sid := randomUUID (uuids st) in
  let t := {| kind := StreamableHTTPServerTransport; sessionId := sid |} in
  let st1 := state (post_mcp randomUUID st hdr init sdk0) in
  let st2 := state (delete_mcp st1 (Some sid) sdk2) in
  calls (post_mcp randomUUID st1 (Some sid) body sdk1) = [HandleRequest t body]
  /\ delete_mcp st1 (Some sid) sdk2
     = {| state := st2; completion := Responded (StatusOnly 204);
          calls := [Close t] |}
  /\ transports st2 = transports st
  /\ post_mcp randomUUID st2 (Some sid) body sdk3
     = {| state := st2;
          completion := Responded (JsonRpcError 400 (-32000)
                                     "Invalid or missing session" (id_or_null body));
          calls := [] |}.
Proof.
  intros Hinit Hbody Hne Hproto Hfresh Hclose. cbv zeta.
  destruct (post_mcp_initialize_stores randomUUID st hdr init sdk0 Hinit)
    as (Hm & _ & _).
  set (st1 := state (post_mcp randomUUID st hdr init sdk0)) in *.
  set (sid := randomUUID (uuids st)) in *.
  set (t := {| kind := StreamableHTTPServerTransport; sessionId := sid |}) in *.
  assert (Hlive : transports st1 !! sid = Some t).
  { rewrite Hm. apply lookup_insert_eq. }
  rewrite (post_mcp_forwards randomUUID st1 sid t body sdk1 Hbody Hne Hlive
             eq_refl).
  rewrite (delete_mcp_live st1 sid t sdk2 Hne Hlive eq_refl Hclose). simpl.
  assert (Hback : transports (delete_transport sid st1) = transports st).
  { simpl. rewrite Hm. by apply delete_insert_id. }
  repeat split; [exact Hback|].
  apply post_mcp_rejects_unknown_session; [done|].
  intros sid' Hp. apply present_Some in Hp as [[= <-] _].
  split; [by rewrite Hback | done].
Qed.

(** X6: the 400 envelope of the router itself, the one its [else]
    branch writes (what a transport writes is [WrittenByTransport] and is
    not meant here): when [POST /mcp] ends with it, the request was no
    initialize message, its session header was absent or empty or named
    nothing in the session object, not even an inherited property, no
    SDK call was made, the session object is as it was, and the code is
    -32000. *)
Theorem rejected_post_has_no_effect st hdr body sdk code message id :
  completion (post_mcp randomUUID st hdr body sdk)
  = Responded (JsonRpcError 400 code message id) ->
  state (post_mcp randomUUID st hdr body sdk) = st
  /\ calls (post_mcp randomUUID st hdr body sdk) = []
  /\ code = -32000
  /\ isInitRequest body = false
  /\ (forall sid, Js.present hdr = Some sid ->
        transports st !! sid = None /\ sid ∉ Js.Object_prototype).
Proof.
  unfold post_mcp, mcp_catch, invalid_session.
  destruct (isInitRequest body).
  - destruct (connect sdk) as [|[]]; [destruct (handleRequest sdk) as [|[]]|..];
      simpl; intros [=].
  - destruct (Js.present hdr) as [sid|].
    + destruct (Js.get _ _) as [[[] ?]| |] eqn:Hget;
        [destruct (handleRequest sdk) as [|[]]|..];
        simpl; intros [=]; subst.
      do 4 (split; [done|]).
      intros sid' [= <-]. revert Hget. unfold Js.get.
      destruct (transports st !! sid); [done|]. by case_bool_decide.
    + simpl. intros [=]. subst. by do 4 (split; [done|]).
Qed.

(** X7: the [id] of every error envelope of [POST /mcp] is the [id] of
    the request when that is truthy and [null] otherwise: a request with
    [id: 0], [id: ""] or no id is answered with [id: null]. *)
Theorem error_envelope_id st hdr body sdk status code message id :
  completion (post_mcp randomUUID st hdr body sdk)
  = Responded (JsonRpcError status code message id) ->
  id = id_or_null body
  /\ (id = Js.JsNull \/ Js.truthy id = true)
  /\ (forall b, body = Some b -> Js.truthy (body_id b) = true -> id = body_id b)
  /\ (forall b, body = Some b -> Js.truthy (body_id b) = false -> id = Js.JsNull).
Proof.
  intros H.
  assert (Hid : id = id_or_null body).
  { revert H. unfold post_mcp, mcp_catch, invalid_session.
    destruct (isInitRequest body).
    - destruct (connect sdk) as [|[]]; [destruct (handleRequest sdk) as [|[]]|..];
        simpl; intros [=]; done.
    - destruct (Js.present hdr) as [sid|].
      + destruct (Js.get _ _) as [[[] ?]| |];
          [destruct (handleRequest sdk) as [|[]]|..];
          simpl; intros [=]; done.
      + simpl. intros [=]. done. }
  subst id. split; [done|]. unfold id_or_null, Js.or_null. repeat split.
  - destruct body as [b|]; [|by left].
    destruct (Js.truthy (body_id b)) eqn:E; auto.
  - intros b -> Ht. by rewrite Ht.
  - intros b -> Ht. by rewrite Ht.
Qed.

(** ** All routes *)

(** X8: the routes that only pass messages on or report, that is
    [POST /mcp] without an initialize body, [POST /messages],
    [GET /health] and [GET /], leave the session object and the counters
    as they are, whatever the SDK does. *)
Theorem forwarding_routes_keep_state st req sdk :
  mutating req = false ->
  state (route randomUUID st req sdk) = st.
Proof.
  destruct req as [h b|h| |q b| |]; simpl; try done.
  - intros Hinit. unfold post_mcp. rewrite Hinit.
    destruct (Js.present h); [|done]. by destruct (Js.get _ _) as [[[] ?]| |].
  - intros _. unfold post_messages.
    destruct (Js.present q); [|done]. by destruct (Js.get _ _) as [[[] ?]| |].
Qed.

(** X9: once the headers of a response are out, a failing SDK call makes
    the handler write nothing more: whichever SDK call of a handler
    throws after the headers were sent, in the initialize branch the
    connect or the [handleRequest] that follows it, the handler only logs
    the failure. *)
Theorem no_second_response_after_headers st req sdk :
  thrown sdk (route randomUUID st req sdk) = Some true ->
  completion (route randomUUID st req sdk) = Responded LoggedOnly.
Proof.
  unfold thrown. destruct req as [h b|h| |q b| |]; simpl.
  - unfold post_mcp. destruct (isInitRequest b).
    + destruct (connect sdk) as [|[]] eqn:Hc; simpl; rewrite ?Hc; try done.
      destruct (handleRequest sdk) as [|[]]; done.
    + destruct (Js.present h); [|done].
      destruct (Js.get _ _) as [[[] ?]| |]; simpl; try done.
      destruct (handleRequest sdk) as [|[]]; done.
  - unfold delete_mcp. destruct (Js.present h); [|done].
    destruct (Js.get _ _); [destruct (close sdk)|..]; done.
  - unfold get_sse. destruct (connect sdk) as [|[]] eqn:Hc; simpl;
      rewrite ?Hc; done.
  - unfold post_messages. destruct (Js.present q); [|done].
    destruct (Js.get _ _) as [[[] ?]| |]; simpl; try done.
    destruct (handlePostMessage sdk) as [|[]]; done.
  - done.
  - done.
Qed.

End MoreRouter.

(** * More on reachable states *)

Lemma lookup_delete_transport_ne sid k st :
  sid <> k -> transports (delete_transport sid st) !! k = transports st !! k.
Proof. intros H. simpl. by rewrite lookup_delete_ne. Qed.

Lemma lookup_onclose_ne t k st :
  sessionId t <> k -> transports (run_onclose t st) !! k = transports st !! k.
Proof.
  intros H. unfold run_onclose.
  destruct (kind t); [done|]. by apply lookup_delete_transport_ne.
Qed.

Lemma size_delete_transport sid st :
  (size (transports (delete_transport sid st)) <= size (transports st))%nat.
Proof.
  simpl. rewrite map_size_delete. destruct (transports st !! sid); simpl; lia.
Qed.

Lemma size_onclose t st :
  (size (transports (run_onclose t st)) <= size (transports st))%nat.
Proof.
  unfold run_onclose. destruct (kind t); [lia|]. apply size_delete_transport.
Qed.

Lemma uuids_onclose t st : uuids (run_onclose t st) = uuids st.
Proof. unfold run_onclose. by destruct (kind t). Qed.

Lemma servers_onclose t st : servers (run_onclose t st) = servers st.
Proof. unfold run_onclose. by destruct (kind t). Qed.

Lemma size_insert_transport sid (t : Transport) (m : gmap string Transport) :
  (size (<[sid := t]> m) <= S (size m))%nat.
Proof. rewrite map_size_insert. destruct (m !! sid); simpl; lia. Qed.

Lemma listening_delete sid st : listening st -> listening (delete_transport sid st).
Proof.
  intros H k t. simpl. intros Hk. apply lookup_delete_Some in Hk as [_ Hk].
  by apply (H k t).
Qed.

Lemma listening_onclose t st : listening st -> listening (run_onclose t st).
Proof. unfold run_onclose. destruct (kind t); auto using listening_delete. Qed.

Section Reachable.

Variable randomUUID : nat -> string.

Ltac handlers :=
  unfold route, post_mcp, delete_mcp, get_sse, post_messages, get_health,
    get_root;
  repeat (case_match; simpl in * ).

Lemma step_listening st ev : listening st -> listening (step randomUUID st ev).
Proof.
  intros H. destruct ev as [req sdk|sid]; simpl.
  - destruct req; handlers; auto using listening_delete, listening_onclose.
    + intros k t Hk Hkind. simpl in *.
      apply lookup_insert_Some in Hk as [[_ <-]|[_ Hk]]; [done|].
      by apply (H k t).
    + intros k t Hk Hkind. simpl in *.
      apply lookup_insert_Some in Hk as [[_ <-]|[_ Hk]]; [done|].
      by apply (H k t).
    + intros k t Hk Hkind. simpl in *.
      apply lookup_insert_Some in Hk as [[<- _]|[_ Hk]]; [set_solver|].
      apply elem_of_union_r. by apply (H k t).
    + intros k t Hk Hkind. simpl in *.
      apply lookup_delete_Some in Hk as [_ Hk].
      apply lookup_insert_Some in Hk as [[<- _]|[_ Hk]]; [set_solver|].
      apply elem_of_union_r. by apply (H k t).
  - case_bool_decide; auto using listening_delete.
Qed.

Lemma run_listening st evs : listening st -> listening (run randomUUID st evs).
Proof.
  revert st. induction evs as [|ev evs IH]; intros st H; simpl; [done|].
  apply IH. by apply step_listening.
Qed.

Lemma step_counters st ev :
  servers st = uuids st ->
  (size (transports st) <= uuids st)%nat ->
  servers (step randomUUID st ev) = uuids (step randomUUID st ev)
  /\ (size (transports (step randomUUID st ev))
      <= uuids (step randomUUID st ev))%nat.
Proof.
  intros Hs Hn.
  assert (Hdel : forall sid, (size (transports (delete_transport sid st))
                              <= uuids st)%nat).
  { intros sid. pose proof (size_delete_transport sid st). lia. }
  assert (Hclose : forall t, (size (transports (run_onclose t st))
                              <= uuids st)%nat).
  { intros t. pose proof (size_onclose t st). lia. }
  assert (Hboth : forall sid t,
            (size (transports (delete_transport sid (run_onclose t st)))
             <= uuids st)%nat).
  { intros sid t. pose proof (size_delete_transport sid (run_onclose t st)).
    pose proof (size_onclose t st). lia. }
  assert (Hins : forall sid t,
            (size (<[sid := t]> (transports st)) <= S (uuids st))%nat).
  { intros sid t. pose proof (size_insert_transport sid t (transports st)). lia. }
  assert (Hinsdel : forall sid t,
            (size (delete sid (<[sid := t]> (transports st))) <= S (uuids st))%nat).
  { intros sid t. rewrite map_size_delete.
    pose proof (Hins sid t). destruct (_ !! _); simpl; lia. }
  destruct ev as [req sdk|sid]; simpl.
  - destruct req; simpl; handlers;
      rewrite ?uuids_onclose, ?servers_onclose; split;
      first [ lia | done | apply Hdel | apply Hclose | apply Hboth | apply Hins
            | apply Hinsdel ].
  - case_bool_decide; [|done]. split; [done | apply Hdel].
Qed.

Lemma run_counters st evs :
  servers st = uuids st ->
  (size (transports st) <= uuids st)%nat ->
  servers (run randomUUID st evs) = uuids (run randomUUID st evs)
  /\ (size (transports (run randomUUID st evs))
      <= uuids (run randomUUID st evs))%nat.
Proof.
  revert st. induction evs as [|ev evs IH]; intros st Hs Hn; simpl; [done|].
  destruct (step_counters st ev Hs Hn). by apply IH.
Qed.

Lemma step_frame st ev k :
  well_keyed st ->
  target randomUUID st ev <> Some k ->
  transports (step randomUUID st ev) !! k = transports st !! k.
Proof.
  intros Hk Hne. destruct ev as [req sdk|sid]; simpl in *.
  - destruct req as [h b|h| |q b| |]; simpl in *.
    + unfold post_mcp. destruct (isInitRequest b).
      * destruct (connect sdk); simpl; apply lookup_insert_ne; congruence.
      * destruct (Js.present h); [|done]. by destruct (Js.get _ _) as [[[] ?]| |].
    + unfold delete_mcp. destruct (Js.present h) as [sid|]; [|done].
      assert (sid <> k) by congruence.
      unfold Js.get. destruct (transports st !! sid) as [t|] eqn:Hlive.
      * pose proof (Hk _ _ Hlive) as Hsid.
        destruct (close sdk) as [|[]]; simpl state.
        -- rewrite lookup_delete_transport_ne by done.
           apply lookup_onclose_ne. congruence.
        -- apply lookup_onclose_ne. congruence.
        -- done.
      * case_bool_decide; simpl state; [|done].
        by apply lookup_delete_transport_ne.
    + unfold get_sse. destruct (connect sdk); simpl.
      * apply lookup_insert_ne. congruence.
      * rewrite lookup_delete_ne by congruence.
        apply lookup_insert_ne. congruence.
    + unfold post_messages. destruct (Js.present q); [|done].
      by destruct (Js.get _ _) as [[[] ?]| |].
    + done.
    + done.
  - case_bool_decide; [|done]. apply lookup_delete_transport_ne. congruence.
Qed.

(** X10: in every state the server can reach, an event changes the
    entry of at most one session id: the id a create draws, the id a
    [DELETE /mcp] names, or the id of the connection that closed.  The
    entry of every other id, live or not, is left as it is. *)
Theorem events_touch_one_session evs ev k :
  target randomUUID (run randomUUID initial evs) ev <> Some k ->
  transports (step randomUUID (run randomUUID initial evs) ev) !! k
  = transports (run randomUUID initial evs) !! k.
Proof.
  intros Hne. apply step_frame; [|done].
  destruct (run_invariant randomUUID initial evs) as [Hk _];
    [apply (initial_invariant randomUUID)..|].
  exact Hk.
Qed.

(** X11: in every state the server can reach, each key of the session
    object is an id [randomUUID] returned earlier, never a string a
    client sent, and the transport stored under it carries that id. *)
Theorem session_keys_are_generated evs sid t :
  transports (run randomUUID initial evs) !! sid = Some t ->
  sessionId t = sid
  /\ exists i, (i < uuids (run randomUUID initial evs))%nat /\ sid = randomUUID i.
Proof.
  intros Hlive.
  destruct (run_invariant randomUUID initial evs) as [Hk Hd];
    [apply (initial_invariant randomUUID)..|].
  split; [by apply Hk | apply Hd; by exists t].
Qed.

(** X12: in every state the server can reach, one server has been built
    for each id drawn, and the session object holds no more entries than
    ids were drawn: [GET /health] never reports more sessions than were
    created. *)
Theorem sessions_bounded_by_creates evs :
  servers (run randomUUID initial evs) = uuids (run randomUUID initial evs)
  /\ (size (transports (run randomUUID initial evs))
      <= uuids (run randomUUID initial evs))%nat
  /\ completion (get_health (run randomUUID initial evs))
     = Responded (HealthReport "ok"
                    (size (transports (run randomUUID initial evs))) "2.0.0").
Proof.
  destruct (run_counters initial evs) as [Hs Hn]; [done | simpl |].
  - rewrite map_size_empty. lia.
  - by repeat split.
Qed.

(** X13: in every state the server can reach, a live SSE session
    carries the close callback, so that the end of its connection always
    removes its entry. *)
Theorem live_stream_is_destroyed_on_close evs sid t :
  transports (run randomUUID initial evs) !! sid = Some t ->
  kind t = SSEServerTransport ->
  sid ∈ closeListeners (run randomUUID initial evs)
  /\ transports (step randomUUID (run randomUUID initial evs)
                   (ConnectionClosed sid)) !! sid = None.
Proof.
  intros Hlive Hkind.
  assert (Hl : listening (run randomUUID initial evs)).
  { apply run_listening. intros k t' H. simpl in H. by rewrite lookup_empty in H. }
  pose proof (Hl sid t Hlive Hkind) as Hin.
  split; [done|]. simpl. rewrite bool_decide_eq_true_2 by done.
  simpl. apply lookup_delete_eq.
Qed.

End Reachable.

(** * The tools *)

(** ** The bulk command as a composition *)

Section BulkComposition.

Variable respond : list BackendCall -> BackendCall -> Settled string.

(** X14: the loop of [set_variables_bulk] over the entries [l1 ++ l2] is
    the loop over [l1] followed, when that is fulfilled, by the loop over
    [l2] that goes on from the log and the results of the first; when
    the first is rejected, nothing of [l2] is attempted. *)
Theorem bulk_loop_over_two_parts a l1 l2 results log :
  bulk_loop respond a (l1 ++ l2) results log
  = await (bulk_loop respond a l1 results)
      (fun results' => bulk_loop respond a l2 results') log.
Proof.
  revert results log. induction l1 as [|e l1 IH]; intros results log.
  - reflexivity.
  - simpl. unfold await, request.
    destruct (respond log (setVariableCall a e)); [|done].
    rewrite IH. reflexivity.
Qed.

(** X15: every request the bulk command issues is the request the
    [set_variable] tool issues for the same project, environment,
    service, name and value: the log grows by the [set_variable] requests
    of a prefix of the entries, in order. *)
Theorem bulk_requests_are_set_variable_requests a log :
  exists n,
    (n <= length (bulkVariables a))%nat
    /\ Tools.of_backend_call <$> (set_variables_bulk respond a log).1
       = (Tools.of_backend_call <$> log)
         ++ ((fun e => Tools.tool_request
                         (Tools.set_variable (projectId a) (environmentId a)
                            (serviceId a) e.1 e.2))
             <$> take n (bulkVariables a)).
Proof.
  destruct (bulk_loop_trace respond a (bulkVariables a) [] log)
    as (n & Hn & Hlog & _).
  exists n. split; [done|]. unfold set_variables_bulk. rewrite Hlog.
  rewrite fmap_app. f_equal. rewrite <- list_fmap_compose.
  apply list_fmap_ext. by intros _ [k v] _.
Qed.

End BulkComposition.

(** ** Requests and results of the other tools *)

Ltac in_list :=
  repeat first [ apply list_elem_of_here | apply list_elem_of_further ].

Ltac not_in_list :=
  let H := fresh in
  intros H;
  repeat (apply elem_of_cons in H as [H|H]; [discriminate H|]);
  by apply elem_of_nil in H.

Section ToolCallbacks.

Import Tools.

(** X16: every tool passes its document only variables the document
    declares, each at most once, and passes every variable the document
    requires. *)
Theorem tools_pass_declared_variables t :
  Forall (fun k => k ∈ (parameters (queries (document (tool_request t)))).*1)
    (values (tool_request t)).*1
  /\ Forall (fun p => p.2 = true -> p.1 ∈ (values (tool_request t)).*1)
       (parameters (queries (document (tool_request t))))
  /\ NoDup (values (tool_request t)).*1.
Proof.
  destruct t as [| | | |? []| | |? []| |? ? []| | | | | |]; simpl;
    (split; [|split]);
    repeat match goal with
      | |- Forall _ [] => constructor
      | |- Forall _ (_ :: _) => constructor
      | |- NoDup [] => constructor
      | |- NoDup (_ :: _) => constructor
      | |- _ ∉ _ => not_in_list
      | |- _ = true -> _ =>
          let H := fresh in intros H; simpl in H; try discriminate H
      | |- _ ∈ _ => by in_list
      end.
Qed.

(** X17: a tool that reads one field of [data] reads the very field its
    document selects: when the backend answers with a value under that
    path, the tool returns that value. *)
Theorem tools_return_the_selected_field t v :
  reads_data t = true ->
  connection (queries (document (tool_request t))) = false ->
  tool_result t (nest (selection (queries (document (tool_request t)))) v)
  = Some v.
Proof. destruct t; simpl; intros; done. Qed.

(** X18: a tool that lists a connection returns the nodes of the edges
    its document selects, one per edge and in the order of the edges. *)
Theorem list_tools_return_the_nodes t edges nodes :
  connection (queries (document (tool_request t))) = true ->
  Forall2 (fun e n => get e "node" = Some n) edges nodes ->
  tool_result t
    (nest (selection (queries (document (tool_request t))))
       (JObject [("edges", JArray edges)]))
  = Some (JArray nodes).
Proof.
  intros Hc Hnodes.
  assert (Hmap : map_nodes (JArray edges) = Some (JArray nodes)).
  { unfold map_nodes. by rewrite (mapM_Some_2 _ _ _ Hnodes). }
  destruct t; simpl in *; try done.
Qed.

(** X19: what the tools that read [data] do with a response that lacks
    what they look for.  On [null] each of them is rejected with a
    TypeError.  On an empty object those that list a connection are
    rejected with a TypeError and the others are fulfilled with
    [undefined].  Either way the request has been issued. *)
Theorem tools_on_unexpected_response
    (respond : list Call -> Call -> Settled Json) t log data :
  reads_data t = true ->
  respond log (tool_request t) = Fulfilled data ->
  data = JNull \/ data = JObject [] ->
  execute respond t log
  = (log ++ [tool_request t],
     match data with
     | JNull => RejectedWith "TypeError"
     | _ =>
         if connection (queries (document (tool_request t)))
         then RejectedWith "TypeError" else Fulfilled JUndefined
     end).
Proof.
  intros Hreads Hdata Hshape. unfold execute. rewrite Hdata.
  destruct Hshape as [-> | ->]; destruct t; simpl in *; done.
Qed.

(** X20: the tools that change or delete something report success as
    soon as the request is fulfilled, without looking at the response:
    the result is [{success: true, ...}] whatever [data] is. *)
Theorem mutation_tools_ignore_the_response
    (respond : list Call -> Call -> Settled Json) t log data :
  reads_data t = false ->
  respond log (tool_request t) = Fulfilled data ->
  exists key v,
    (forall data', tool_result t data' = Some (done_with key v))
    /\ execute respond t log
       = (log ++ [tool_request t],
          Fulfilled (JObject [("success", JBool true); (key, v)])).
Proof.
  intros Hreads Hdata. unfold execute. rewrite Hdata.
  destruct t; simpl in *; try done; eauto.
Qed.

(** X21: [get_deployment_logs] never asks for zero lines: the limit it
    passes is the caller's when that is a number other than 0, and 100
    when the caller gave none or gave 0. *)
Theorem deployment_logs_limit deploymentId limit :
  field "limit" (values (tool_request (get_deployment_logs deploymentId limit)))
  = JNumber (limit_or_100 limit)
  /\ limit_or_100 limit <> 0
  /\ (forall n, limit = Some n -> n <> 0 -> limit_or_100 limit = n)
  /\ (limit = None \/ limit = Some 0 -> limit_or_100 limit = 100).
Proof.
  unfold limit_or_100. repeat split.
  - destruct limit as [n|]; [|done]. destruct (Z.eqb_spec n 0); done.
  - intros n -> Hn. by destruct (Z.eqb_spec n 0).
  - by intros [->| ->].
Qed.

End ToolCallbacks.

(** X22: [GET /] lists exactly the names [createMcpServer] registers, in
    the order of registration; the seventeen names are distinct, and they
    are the bulk command and the names of the sixteen tools with one
    request. *)
Theorem root_lists_the_registered_tools :
  tool_names = Tools.registered
  /\ NoDup Tools.registered
  /\ length Tools.registered = 17%nat
  /\ (forall t, Tools.tool_name t ∈ Tools.registered)
  /\ (forall n, n ∈ Tools.registered ->
        n = "set_variables_bulk" \/ exists t, Tools.tool_name t = n).
Proof.
  split; [reflexivity|]. split; [|split; [reflexivity|split]].
  - apply (bool_decide_unpack _). vm_compute. exact I.
  - intros t. unfold Tools.registered. destruct t; simpl; in_list.
  - intros n Hn. unfold Tools.registered in Hn.
    repeat (apply elem_of_cons in Hn as [->|Hn]);
      [ right; by exists Tools.list_projects
      | right; by exists (Tools.get_project "")
      | right; by exists (Tools.list_services "")
      | right; by exists (Tools.list_deployments "" "")
      | right; by exists (Tools.get_deployment_logs "" None)
      | right; by exists (Tools.list_variables "" "" "")
      | right; by exists (Tools.list_environments "")
      | right; by exists (Tools.create_project "" None)
      | right; by exists (Tools.create_service "" "")
      | right; by exists (Tools.deploy_from_github "" "" None)
      | right; by exists (Tools.create_domain "" "")
      | right; by exists (Tools.set_variable "" "" "" "" "")
      | by left
      | right; by exists (Tools.restart_service "" "")
      | right; by exists (Tools.delete_project "")
      | right; by exists (Tools.delete_service "")
      | right; by exists (Tools.delete_variable "" "" "" "")
      | by apply elem_of_nil in Hn ].
Qed.

(** * Examples on concrete inputs *)

(** The first [GET /sse] on a fresh server, then a message for it. *)
Lemma get_sse_opens_session_example :
  let t := {| kind := SSEServerTransport; sessionId := sampleUUID 0 |} in
  let h := get_sse sampleUUID initial ok_sdk in
  completion h = Responded (EventStream t)
  /\ calls h = [Construct t; CreateMcpServer 0; Connect 0 t]
  /\ transports (state h) = <[sampleUUID 0 := t]> (transports initial)
  /\ sampleUUID 0 ∈ closeListeners (state h)
  /\ calls (post_messages (state h) (Some (sampleUUID 0)) tools_list_body ok_sdk)
     = [HandlePostMessage t tools_list_body]
  /\ state (post_messages (state h) (Some (sampleUUID 0)) tools_list_body ok_sdk)
     = state h.
Proof.
  apply (get_sse_opens_session sampleUUID initial ok_sdk tools_list_body ok_sdk).
  - reflexivity.
  - discriminate.
Defined.

(** The connection of that session goes away. *)
Lemma sse_connection_close_destroys_example :
  let st' := step sampleUUID (state (get_sse sampleUUID initial ok_sdk))
               (ConnectionClosed (sampleUUID 0)) in
  transports st' = transports initial
  /\ post_messages st' (Some (sampleUUID 0)) tools_list_body ok_sdk
     = {| state := st';
          completion := Responded (JsonError 404 "Session not found");
          calls := [] |}.
Proof.
  apply (sse_connection_close_destroys sampleUUID initial ok_sdk
           tools_list_body ok_sdk).
  - reflexivity.
  - discriminate.
  - reflexivity.
Defined.

(** A [GET /sse] whose connect throws before the headers, on a server
    with one session. *)
Lemma get_sse_connect_failure_cleans_up_example :
  let st := run sampleUUID initial
              [Incoming (POST_mcp None initialize_body) ok_sdk] in
  let sdk := {| connect := Throws false; handleRequest := Returns;
                handlePostMessage := Returns; close := CloseReturns |} in
  let h := get_sse sampleUUID st sdk in
  transports (state h) = transports st
  /\ completion h = Responded (StatusOnly 500)
  /\ completion (get_health (state h)) = completion (get_health st).
Proof.
  apply (get_sse_connect_failure_cleans_up sampleUUID
           (run sampleUUID initial
              [Incoming (POST_mcp None initialize_body) ok_sdk])
           {| connect := Throws false; handleRequest := Returns;
              handlePostMessage := Returns; close := CloseReturns |} false).
  - reflexivity.
  - vm_compute. reflexivity.
Defined.

(** An initialize request whose [handleRequest] throws before the
    headers, on a fresh server: 500, and one session counted. *)
Lemma post_mcp_initialize_failure_keeps_entry_example :
  let h := post_mcp sampleUUID initial None initialize_body failing_handle_sdk in
  completion h
  = Responded (JsonRpcError 500 (-32603) "Internal server error" (Js.JsNumber 1))
  /\ transports (state h) !! sampleUUID 0
     = Some {| kind := StreamableHTTPServerTransport;
               sessionId := sampleUUID 0 |}
  /\ completion (get_health (state h))
     = Responded (HealthReport "ok" 1 "2.0.0").
Proof.
  apply (post_mcp_initialize_failure_keeps_entry sampleUUID initial None
           initialize_body failing_handle_sdk).
  - reflexivity.
  - right. split; reflexivity.
  - reflexivity.
Defined.

(** Create, use, destroy and use again the first session of a server. *)
Lemma streamable_session_round_trip_example :
  let sid := sampleUUID 0 in
  let t := {| kind := StreamableHTTPServerTransport; sessionId := sid |} in
  let st1 := state (post_mcp sampleUUID initial None initialize_body ok_sdk) in
  let st2 := state (delete_mcp st1 (Some sid) ok_sdk) in
  calls (post_mcp sampleUUID st1 (Some sid) tools_list_body ok_sdk)
  = [HandleRequest t tools_list_body]
  /\ delete_mcp st1 (Some sid) ok_sdk
     = {| state := st2; completion := Responded (StatusOnly 204);
          calls := [Close t] |}
  /\ transports st2 = transports initial
  /\ post_mcp sampleUUID st2 (Some sid) tools_list_body ok_sdk
     = {| state := st2;
          completion := Responded (JsonRpcError 400 (-32000)
                                     "Invalid or missing session" (Js.JsNumber 2));
          calls := [] |}.
Proof.
  apply (streamable_session_round_trip sampleUUID initial None initialize_body
           tools_list_body ok_sdk ok_sdk ok_sdk ok_sdk).
  - reflexivity.
  - reflexivity.
  - discriminate.
  - apply sample_not_inherited.
  - reflexivity.
  - reflexivity.
Defined.

(** A request with an id that was never created. *)
Lemma rejected_post_has_no_effect_example :
  state (post_mcp sampleUUID one_stream (Some (sampleUUID 5)) tools_list_body
           ok_sdk) = one_stream
  /\ calls (post_mcp sampleUUID one_stream (Some (sampleUUID 5)) tools_list_body
              ok_sdk) = []
  /\ -32000 = -32000
  /\ isInitRequest tools_list_body = false
  /\ (forall sid, Js.present (Some (sampleUUID 5)) = Some sid ->
        transports one_stream !! sid = None /\ sid ∉ Js.Object_prototype).
Proof.
  apply (rejected_post_has_no_effect sampleUUID one_stream (Some (sampleUUID 5))
           tools_list_body ok_sdk (-32000) "Invalid or missing session"
           (Js.JsNumber 2)).
  vm_compute. reflexivity.
Defined.

(** A request with [id: 0] and no session header: the envelope carries
    [id: null]. *)
Lemma error_envelope_id_example :
  let body := Some {| body_method := Js.JsString "tools/list";
                      body_id := Js.JsNumber 0 |} in
  Js.JsNull = id_or_null body
  /\ (Js.JsNull = Js.JsNull \/ Js.truthy Js.JsNull = true)
  /\ (forall b, body = Some b -> Js.truthy (body_id b) = true ->
        Js.JsNull = body_id b)
  /\ (forall b, body = Some b -> Js.truthy (body_id b) = false ->
        Js.JsNull = Js.JsNull).
Proof.
  apply (error_envelope_id sampleUUID initial None
           (Some {| body_method := Js.JsString "tools/list";
                    body_id := Js.JsNumber 0 |})
           ok_sdk 400 (-32000) "Invalid or missing session" Js.JsNull).
  reflexivity.
Defined.

(** A message for the SSE session of [one_stream]. *)
Lemma forwarding_routes_keep_state_example :
  state (route sampleUUID one_stream
           (POST_messages (Some (sampleUUID 0)) tools_list_body) ok_sdk)
  = one_stream.
Proof.
  apply (forwarding_routes_keep_state sampleUUID one_stream
           (POST_messages (Some (sampleUUID 0)) tools_list_body) ok_sdk).
  reflexivity.
Defined.

(** An initialize request whose connect returns and whose
    [handleRequest] throws after the headers. *)
Lemma no_second_response_after_headers_example :
  completion (route sampleUUID initial (POST_mcp None initialize_body)
                {| connect := Returns; handleRequest := Throws true;
                   handlePostMessage := Returns; close := CloseReturns |})
  = Responded LoggedOnly.
Proof.
  apply (no_second_response_after_headers sampleUUID initial
           (POST_mcp None initialize_body)
           {| connect := Returns; handleRequest := Throws true;
              handlePostMessage := Returns; close := CloseReturns |}).
  reflexivity.
Defined.

(** Destroying the first session leaves the second one alone. *)
Lemma events_touch_one_session_example :
  let evs := [Incoming (POST_mcp None initialize_body) ok_sdk;
              Incoming GET_sse ok_sdk] in
  transports (step sampleUUID (run sampleUUID initial evs)
                (Incoming (DELETE_mcp (Some (sampleUUID 0))) ok_sdk))
    !! sampleUUID 1
  = transports (run sampleUUID initial evs) !! sampleUUID 1.
Proof.
  apply (events_touch_one_session sampleUUID
           [Incoming (POST_mcp None initialize_body) ok_sdk;
            Incoming GET_sse ok_sdk]
           (Incoming (DELETE_mcp (Some (sampleUUID 0))) ok_sdk) (sampleUUID 1)).
  vm_compute. discriminate.
Defined.

(** The session left after [create_destroy_create] under the second id. *)
Lemma session_keys_are_generated_example :
  sampleUUID 1 = sampleUUID 1
  /\ exists i,
       (i < uuids (run sampleUUID initial create_destroy_create))%nat
       /\ sampleUUID 1 = sampleUUID i.
Proof.
  apply (session_keys_are_generated sampleUUID create_destroy_create
           (sampleUUID 1)
           {| kind := SSEServerTransport; sessionId := sampleUUID 1 |}).
  vm_compute. reflexivity.
Defined.

(** The SSE session of [create_destroy_create]. *)
Lemma live_stream_is_destroyed_on_close_example :
  sampleUUID 1 ∈ closeListeners (run sampleUUID initial create_destroy_create)
  /\ transports (step sampleUUID (run sampleUUID initial create_destroy_create)
                   (ConnectionClosed (sampleUUID 1))) !! sampleUUID 1 = None.
Proof.
  apply (live_stream_is_destroyed_on_close sampleUUID create_destroy_create
           (sampleUUID 1)
           {| kind := SSEServerTransport; sessionId := sampleUUID 1 |}).
  - vm_compute. reflexivity.
  - reflexivity.
Defined.

(** [get_project] on a response with the project under [project]. *)
Lemma tools_return_the_selected_field_example :
  Tools.tool_result (Tools.get_project "p1")
    (Tools.JObject
       [("project", Tools.JObject [("id", Tools.JString "p1")])])
  = Some (Tools.JObject [("id", Tools.JString "p1")]).
Proof.
  apply (tools_return_the_selected_field (Tools.get_project "p1")
           (Tools.JObject [("id", Tools.JString "p1")])); reflexivity.
Defined.

(** [list_services] on a response with two edges. *)
Lemma list_tools_return_the_nodes_example :
  Tools.tool_result (Tools.list_services "p1")
    (Tools.JObject
       [("project",
         Tools.JObject
           [("services",
             Tools.JObject
               [("edges",
                 Tools.JArray [Tools.edge (Tools.JString "web");
                               Tools.edge (Tools.JString "db")])])])])
  = Some (Tools.JArray [Tools.JString "web"; Tools.JString "db"]).
Proof.
  apply (list_tools_return_the_nodes (Tools.list_services "p1")
           [Tools.edge (Tools.JString "web"); Tools.edge (Tools.JString "db")]
           [Tools.JString "web"; Tools.JString "db"]).
  - reflexivity.
  - repeat constructor.
Defined.

(** [list_projects] against a backend that answers [{}]. *)
Lemma tools_on_unexpected_response_example :
  Tools.execute (fun _ _ => Fulfilled (Tools.JObject [])) Tools.list_projects []
  = ([] ++ [Tools.tool_request Tools.list_projects], RejectedWith "TypeError").
Proof.
  apply (tools_on_unexpected_response
           (fun _ _ => Fulfilled (Tools.JObject [])) Tools.list_projects []
           (Tools.JObject [])).
  - reflexivity.
  - reflexivity.
  - by right.
Defined.

(** [delete_project] against a backend that answers
    [{projectDelete: false}]. *)
Lemma mutation_tools_ignore_the_response_example :
  exists key v,
    (forall data',
       Tools.tool_result (Tools.delete_project "p1") data'
       = Some (Tools.done_with key v))
    /\ Tools.execute
         (fun _ _ =>
            Fulfilled (Tools.JObject [("projectDelete", Tools.JBool false)]))
         (Tools.delete_project "p1") []
       = ([] ++ [Tools.tool_request (Tools.delete_project "p1")],
          Fulfilled (Tools.JObject [("success", Tools.JBool true); (key, v)])).
Proof.
  apply (mutation_tools_ignore_the_response
           (fun _ _ =>
              Fulfilled (Tools.JObject [("projectDelete", Tools.JBool false)]))
           (Tools.delete_project "p1") []
           (Tools.JObject [("projectDelete", Tools.JBool false)]));
    reflexivity.
Defined.

(** ** The CORS middleware and the routes *)

(** X23: the middleware allows what the routes use: the method of every
    route and [OPTIONS] are among the allowed methods, the session header
    the routes read is among the allowed request headers and among the
    exposed response headers, and an [OPTIONS] request is ended with 200
    while every other method goes on to the routes. *)
Theorem cors_allows_what_the_routes_use :
  (forall req,
     method_of req ∈ items (header "Access-Control-Allow-Methods" (cors "GET").1))
  /\ "OPTIONS" ∈ items (header "Access-Control-Allow-Methods" (cors "OPTIONS").1)
  /\ session_header_name
     ∈ lower <$> items (header "Access-Control-Allow-Headers" (cors "POST").1)
  /\ session_header_name
     ∈ lower <$> items (header "Access-Control-Expose-Headers" (cors "POST").1)
  /\ (cors "OPTIONS").2 = Some (StatusOnly 200)
  /\ (forall req, (cors (method_of req)).2 = None)
  /\ (forall method, (cors method).1 = cors_headers).
Proof.
  repeat split.
  - intros req. destruct req; vm_compute; in_list.
  - vm_compute. in_list.
  - vm_compute. in_list.
  - vm_compute. in_list.
  - by intros [].
Qed.
